(** * e2b_sandbox_inspector: the sandbox control and telemetry facade

    A shallow embedding of [schemas.py] and [async_client.py] and the
    properties of the facade: pagination, metric-shape disambiguation,
    the bulk-kill confirmation gate, error classification in [kill],
    the fleet summary and the derived fields of the data model.

    Conventions of the embedding:
    - Python [int] is [Z]; [str] is [string] (ASCII); [float] is an IEEE 754
      binary64 value, written with the Standard Library's [spec_float];
    - a timezone-aware [datetime] is the instant it denotes, in microseconds
      since the epoch, and a [timedelta] is a number of microseconds;
    - a call of the facade is a computation in a state-and-exception monad
      whose state is the trace of the calls made to the remote provider. *)

From Stdlib Require Import ZArith List String Ascii Bool Lia.
From Stdlib Require Import Floats.SpecFloat.
Import ListNotations.

Local Open Scope string_scope.
Local Open Scope list_scope.
Local Open Scope Z_scope.

(* ================================================================== *)
(** ** Python strings: [str.lower] and the substring test [in] *)
(* ================================================================== *)

Module PyStr.

(** [c.lower()] for one ASCII character: [A]..[Z] are moved to [a]..[z],
    every other character is kept. *)
Definition lower_ascii (c : ascii) : ascii :=
  let n := nat_of_ascii c in
  if (Nat.leb 65 n && Nat.leb n 90)%bool then ascii_of_nat (n + 32) else c.

(** [s.lower()] *)
Fixpoint lower (s : string) : string :=
  match s with
  | EmptyString => EmptyString
  | String c rest => String (lower_ascii c) (lower rest)
  end.

(** [s.startswith(p)] *)
Fixpoint startswith (p s : string) : bool :=
  match p, s with
  | EmptyString, _ => true
  | String _ _, EmptyString => false
  | String a p', String b s' => (Ascii.eqb a b && startswith p' s')%bool
  end.

(** [sub in s]: [sub] occurs in [s] at some position. *)
Fixpoint contains (sub s : string) : bool :=
  (startswith sub s ||
   match s with
   | EmptyString => false
   | String _ rest => contains sub rest
   end)%bool.

End PyStr.

(* ================================================================== *)
(** ** Python floats *)
(* ================================================================== *)

Module PyFloat.

Definition prec : Z := 53.
Definition emax : Z := 1024.

(** A Python [float]: an IEEE 754 binary64 value. *)
Definition float : Type := spec_float.

Definition pos_zero : float := S754_zero false.

(** [float(n)], correctly rounded. *)
Definition of_int (n : Z) : float := binary_normalize prec emax n 0 false.

(** The double nearest to the quotient [n / d] of two positive integers,
    with the sign [neg]. The mantissas given to [SFdiv] are the integers
    themselves, so that the quotient is rounded once, from its exact
    value. *)
Definition of_quot (neg : bool) (n d : positive) : float :=
  SFdiv prec emax (S754_finite neg n 0) (S754_finite false d 0).

Definition mul (x y : float) : float := SFmul prec emax x y.

(** [x == y], [x < y] and [x <= y] on floats. *)
Definition eqb (x y : float) : bool := SFeqb x y.
Definition ltb (x y : float) : bool := SFltb x y.
Definition leb (x y : float) : bool := SFleb x y.

(** [a / b] on two ints with [b] not 0 (int.__truediv__): the exact
    quotient rounded to the nearest double; [None] stands for the
    [OverflowError] raised when that double would be infinite. A zero
    numerator gives a zero whose sign is that of the denominator. *)
Definition int_truediv (a b : Z) : option float :=
  match a, b with
  | _, Z0 => None
  | Z0, _ => Some (S754_zero (b <? 0))
  | Zpos n, Zpos d =>
      match of_quot false n d with S754_infinity _ => None | q => Some q end
  | Zpos n, Zneg d =>
      match of_quot true n d with S754_infinity _ => None | q => Some q end
  | Zneg n, Zpos d =>
      match of_quot true n d with S754_infinity _ => None | q => Some q end
  | Zneg n, Zneg d =>
      match of_quot false n d with S754_infinity _ => None | q => Some q end
  end.

(** [m * 2^e * 10] rounded to the nearest integer, ties to even. *)
Definition tenths (m : positive) (e : Z) : Z :=
  match e with
  | Zneg k =>
      let d := Z.pow_pos 2 k in
      let q := (10 * Zpos m) / d in
      let r := (10 * Zpos m) mod d in
      match (2 * r) ?= d with
      | Lt => q
      | Eq => if Z.even q then q else q + 1
      | Gt => q + 1
      end
  | _ => 10 * Zpos m * 2 ^ e
  end.

(** [round(x, 1)] (float.__round__ with [ndigits = 1]): infinities and
    NaN round to themselves; a finite [x] is first rounded to the decimal
    with one fractional digit nearest to its exact value (ties to even),
    and that decimal is then converted to the nearest double. The sign of
    [x] is kept, also when the result is zero. *)
Definition round1 (x : float) : float :=
  match x with
  | S754_finite s m e =>
      match tenths m e with
      | Zpos n => of_quot s n 10
      | _ => S754_zero s
      end
  | _ => x
  end.

End PyFloat.

(* ================================================================== *)
(** ** Exceptions and results *)
(* ================================================================== *)

(** The exceptions the facade raises or lets through. [SdkError msg] is an
    [Exception] raised by the provider's SDK, with [str(e) = msg]. *)
Inductive PyExn : Type :=
| ValueError (msg : string)
| OverflowError (msg : string)
| IndexError (msg : string)
| ValidationError (msg : string)
| SdkError (msg : string).

(** [str(e)] *)
Definition exn_str (e : PyExn) : string :=
  match e with
  | ValueError msg | OverflowError msg | IndexError msg
  | ValidationError msg | SdkError msg => msg
  end.

Inductive Result (A : Type) : Type :=
| Ok (a : A)
| Raise (e : PyExn).

Arguments Ok {A} a.
Arguments Raise {A} e.

(* ================================================================== *)
(** ** schemas.py *)
(* ================================================================== *)

Module Schemas.

(** [datetime] (timezone-aware) and [timedelta], in microseconds. *)
Definition datetime : Type := Z.
Definition timedelta : Type := Z.

(** [SandboxState = Literal["running", "paused"]]: the check a field of
    that type makes on the value it is given. *)
Definition is_SandboxState (s : string) : bool :=
  (String.eqb s "running" || String.eqb s "paused")%bool.

Record SandboxInfo : Type := {
  sandbox_id : string;
  template_id : string;
  name : option string;
  metadata : list (string * string);
  state : string;
  started_at : datetime;
  end_at : datetime;
  cpu_count : Z;
  memory_mb : Z
}.

(** [SandboxInfo.uptime], evaluated when the clock reads [now]. *)
Definition uptime (self : SandboxInfo) (now : datetime) : timedelta :=
  now - started_at self.

(** [max(a, b)] on two values: [b] only when it is strictly larger. *)
Definition py_max (a b : Z) : Z := if a <? b then b else a.

(** [SandboxInfo.time_remaining], evaluated when the clock reads [now]. *)
Definition time_remaining (self : SandboxInfo) (now : datetime) : timedelta :=
  let remaining := end_at self - now in
  py_max remaining 0.

Record SandboxMetrics : Type := {
  m_cpu_count : Z;
  cpu_pct : PyFloat.float;
  mem_total_mb : Z;
  mem_used_mb : Z;
  disk_total_mb : Z;
  disk_used_mb : Z;
  timestamp : datetime
}.

(** [round((used / total) * 100, 1)], the body shared by the two
    percentages once the total is known not to be 0. *)
Definition pct_of (used total : Z) : Result PyFloat.float :=
  match PyFloat.int_truediv used total with
  | Some q => Ok (PyFloat.round1 (PyFloat.mul q (PyFloat.of_int 100)))
  | None => Raise (OverflowError "integer division result too large for a float")
  end.

(** [SandboxMetrics.mem_pct] *)
Definition mem_pct (self : SandboxMetrics) : Result PyFloat.float :=
  if mem_total_mb self =? 0 then Ok PyFloat.pos_zero
  else pct_of (mem_used_mb self) (mem_total_mb self).

(** [SandboxMetrics.disk_pct] *)
Definition disk_pct (self : SandboxMetrics) : Result PyFloat.float :=
  if disk_total_mb self =? 0 then Ok PyFloat.pos_zero
  else pct_of (disk_used_mb self) (disk_total_mb self).

Record CommandResult : Type := {
  stdout : string;
  stderr : string;
  exit_code : Z
}.

(** [CommandResult.success] *)
Definition success (self : CommandResult) : bool := exit_code self =? 0.

Record CodeResult : Type := {
  c_stdout : string;
  c_stderr : string;
  error : option string;
  results : list (option string)
}.

(** [CodeResult.success] *)
Definition code_success (self : CodeResult) : bool :=
  match error self with None => true | Some _ => false end.

Record Summary : Type := {
  running_count : Z;
  paused_count : Z;
  total_count : Z;
  total_cpu : Z;
  total_memory_mb : Z;
  oldest_sandbox_id : option string;
  oldest_uptime : option timedelta;
  newest_sandbox_id : option string;
  newest_uptime : option timedelta
}.

End Schemas.

(* ================================================================== *)
(** ** The remote provider, as the facade sees it *)
(* ================================================================== *)

Module Sdk.

Import Schemas.

(** The provider's own state enumeration (e2b's [SandboxState]) and its
    [.value]. *)
Inductive SandboxState : Type := RUNNING | PAUSED.

Definition value (s : SandboxState) : string :=
  match s with
  | RUNNING => "running"
  | PAUSED => "paused"
  end.

(** [SandboxQuery(state=..., metadata=...)] *)
Record SandboxQuery : Type := {
  q_state : option (list SandboxState);
  q_metadata : option (list (string * string))
}.

(** A sandbox record as a listing page carries it. *)
Record ListedSandbox : Type := {
  l_sandbox_id : string;
  l_template_id : string;
  l_name : option string;
  l_metadata : list (string * string);
  l_state : SandboxState;
  l_started_at : datetime;
  l_end_at : datetime;
  l_cpu_count : Z;
  l_memory_mb : Z
}.

(** What a paginator still has to serve: its pages in order. After a
    [MorePages] page [has_next] is true, after the [LastPage] it is
    false. *)
Inductive Pages : Type :=
| LastPage (items : list ListedSandbox)
| MorePages (items : list ListedSandbox) (rest : Pages).

(** A metric record of [get_metrics]; sizes are in bytes. *)
Record RawMetrics : Type := {
  r_cpu_count : Z;
  r_cpu_used_pct : PyFloat.float;
  r_mem_total : Z;
  r_mem_used : Z;
  r_disk_total : Z;
  r_disk_used : Z;
  r_timestamp : datetime
}.

(** The result of [commands.run]. *)
Record RawCommand : Type := {
  rc_stdout : option string;
  rc_stderr : option string;
  rc_exit_code : Z
}.

(** One element of [execution.results]: an object with a [text]
    attribute, or any other object, of which [str(r)] is kept. *)
Inductive RawResult : Type :=
| WithText (text : option string)
| Other (repr : string).

Record Logs : Type := {
  logs_stdout : list string;
  logs_stderr : list string
}.

(** The result of [run_code]; [ex_error] holds [str(execution.error)]. *)
Record Execution : Type := {
  ex_logs : option Logs;
  ex_results : list RawResult;
  ex_error : option string
}.

(** What [AsyncSandbox.kill] does for one id: it returns, or it raises. *)
Inductive KillOutcome : Type :=
| Killed
| KillFailed (e : PyExn).

(** The calls the facade makes to the provider. *)
Inductive Call : Type :=
| CallList (query : option SandboxQuery)
| CallNextItems
| CallConnect (sandbox_id : string)
| CallGetMetrics (sandbox_id : string) (start end_ : option datetime)
| CallRunCommand (sandbox_id command : string) (timeout : Z)
| CallRunCode (sandbox_id code language : string) (timeout : Z)
| CallKill (sandbox_id : string).

(** The behaviour of the provider during one call of the facade. The
    outcome of a termination may depend on the calls made before it. *)
Record Provider : Type := {
  list_pages : option SandboxQuery -> Pages;
  connect_error : string -> option PyExn;
  metrics_of : string -> option datetime -> option datetime ->
               Result (list RawMetrics);
  run_of : string -> string -> Z -> Result RawCommand;
  run_code_of : string -> string -> string -> Z -> Result Execution;
  kill_of : list Call -> string -> KillOutcome
}.

End Sdk.

(* ================================================================== *)
(** ** The monad of facade calls *)
(* ================================================================== *)

(** A computation reads and extends the trace of provider calls and
    returns a value or raises. The trace survives an exception. *)
Definition M (A : Type) : Type := list Sdk.Call -> Result A * list Sdk.Call.

Definition ret {A : Type} (a : A) : M A := fun tr => (Ok a, tr).

Definition raise {A : Type} (e : PyExn) : M A := fun tr => (Raise e, tr).

Definition bind {A B : Type} (m : M A) (k : A -> M B) : M B :=
  fun tr =>
    match m tr with
    | (Ok a, tr') => k a tr'
    | (Raise e, tr') => (Raise e, tr')
    end.

(** [try: m except Exception as e: h e] *)
Definition try_except {A : Type} (m : M A) (h : PyExn -> M A) : M A :=
  fun tr =>
    match m tr with
    | (Ok a, tr') => (Ok a, tr')
    | (Raise e, tr') => h e tr'
    end.

(** A pure step that may raise. *)
Definition lift {A : Type} (r : Result A) : M A := fun tr => (r, tr).

(** Record one provider call in the trace. *)
Definition call (c : Sdk.Call) : M unit := fun tr => (Ok tt, tr ++ [c]).

Notation "x <- c1 ;; c2" := (bind c1 (fun x => c2))
  (at level 61, c1 at next level, right associativity).
Notation "c1 ;;; c2" := (bind c1 (fun _ => c2))
  (at level 61, right associativity).

(* ================================================================== *)
(** ** Python built-ins used by the client *)
(* ================================================================== *)

Module Py.

(** Truth value of a [str]. *)
Definition str_truthy (s : string) : bool :=
  match s with EmptyString => false | String _ _ => true end.

(** [x or y] where [x] is [str | None]. *)
Definition or_str (x : option string) (y : option string) : option string :=
  match x with
  | Some s => if str_truthy s then x else y
  | None => y
  end.

(** [x or ""] where [x] is [str | None]. *)
Definition or_empty (x : option string) : string :=
  match x with
  | Some s => s
  | None => ""
  end.

(** [x or d] where [x] is [int | None] and [d] an [int]: [x] when it is
    truthy (an int other than 0), [d] otherwise. *)
Definition or_int (x : option Z) (d : Z) : Z :=
  match x with
  | Some t => if t =? 0 then d else t
  | None => d
  end.

(** [sum(l)] *)
Definition sum (l : list Z) : Z := fold_left Z.add l 0.

(** [len(l)] *)
Definition len {A : Type} (l : list A) : Z := Z.of_nat (List.length l).

(** The loop of [min(l, key=key)]: the kept element is replaced only by
    one whose key is strictly smaller. *)
Fixpoint min_loop {A : Type} (key : A -> Z) (best : A) (l : list A) : A :=
  match l with
  | [] => best
  | x :: rest => min_loop key (if key x <? key best then x else best) rest
  end.

(** The loop of [max(l, key=key)]: the kept element is replaced only by
    one whose key is strictly larger. *)
Fixpoint max_loop {A : Type} (key : A -> Z) (best : A) (l : list A) : A :=
  match l with
  | [] => best
  | x :: rest => max_loop key (if key best <? key x then x else best) rest
  end.

(** [min(l, key=key) if l else None] *)
Definition min_key {A : Type} (key : A -> Z) (l : list A) : option A :=
  match l with
  | [] => None
  | x :: rest => Some (min_loop key x rest)
  end.

(** [max(l, key=key) if l else None] *)
Definition max_key {A : Type} (key : A -> Z) (l : list A) : option A :=
  match l with
  | [] => None
  | x :: rest => Some (max_loop key x rest)
  end.

(** ["".join(l)] *)
Definition join (l : list string) : string := String.concat "" l.

End Py.

(* ================================================================== *)
(** ** async_client.py: [AsyncSandboxInspector] *)
(* ================================================================== *)

Module Client.

Import Schemas Sdk PyStr.

Record Inspector : Type := {
  api_key : string;
  default_timeout : Z
}.

(** [AsyncSandboxInspector.__init__]; [env_key] is the value of the
    [E2B_API_KEY] environment variable, if set. *)
Definition init (api_key_arg env_key : option string) (default_timeout_arg : Z)
  : Result Inspector :=
  match Py.or_str api_key_arg env_key with
  | Some k =>
      if Py.str_truthy k
      then Ok {| api_key := k; default_timeout := default_timeout_arg |}
      else Raise (ValueError "E2B API key required. Pass api_key or set E2B_API_KEY environment variable.")
  | None =>
      Raise (ValueError "E2B API key required. Pass api_key or set E2B_API_KEY environment variable.")
  end.

(** [SandboxInfo(...)]: the model is built once the [state] field has
    passed the check of its literal type. *)
Definition new_SandboxInfo (sbx : ListedSandbox) : Result SandboxInfo :=
  let st := value (l_state sbx) in
  if is_SandboxState st
  then Ok {| sandbox_id := l_sandbox_id sbx;
             template_id := l_template_id sbx;
             name := l_name sbx;
             metadata := l_metadata sbx;
             state := st;
             started_at := l_started_at sbx;
             end_at := l_end_at sbx;
             cpu_count := l_cpu_count sbx;
             memory_mb := l_memory_mb sbx |}
  else Raise (ValidationError "state: input should be 'running' or 'paused'").

(** [for sbx in items: sandboxes.append(SandboxInfo(...))] *)
Fixpoint append_items (sandboxes : list SandboxInfo) (items : list ListedSandbox)
  : Result (list SandboxInfo) :=
  match items with
  | [] => Ok sandboxes
  | sbx :: rest =>
      match new_SandboxInfo sbx with
      | Ok info => append_items (sandboxes ++ [info]) rest
      | Raise e => Raise e
      end
  end.

(** The metric conversion of [metrics]: bytes to whole megabytes. *)
Definition to_metrics (m : RawMetrics) : SandboxMetrics :=
  {| m_cpu_count := r_cpu_count m;
     cpu_pct := r_cpu_used_pct m;
     mem_total_mb := r_mem_total m / (1024 * 1024);
     mem_used_mb := r_mem_used m / (1024 * 1024);
     disk_total_mb := r_disk_total m / (1024 * 1024);
     disk_used_mb := r_disk_used m / (1024 * 1024);
     timestamp := r_timestamp m |}.

(** The return value of [metrics]: [SandboxMetrics | list[SandboxMetrics]]. *)
Inductive MetricsResult : Type :=
| Snapshot (m : SandboxMetrics)
| Series (l : list SandboxMetrics).

(** [r.text if hasattr(r, "text") else str(r)] *)
Definition result_text (r : RawResult) : option string :=
  match r with
  | WithText t => t
  | Other repr => Some repr
  end.

Definition is_None {A : Type} (x : option A) : bool :=
  match x with None => true | Some _ => false end.

Section Methods.

Variable self : Inspector.
Variable p : Provider.

(** The query [list_sandboxes] builds from its two filters. *)
Definition build_query (state_arg : option string)
           (metadata_arg : option (list (string * string)))
  : option SandboxQuery :=
  let state_given :=
    match state_arg with Some s => Py.str_truthy s | None => false end in
  let metadata_given :=
    match metadata_arg with Some (_ :: _) => true | _ => false end in
  if (state_given || metadata_given)%bool then
    let state_filter :=
      if state_given then
        match state_arg with
        | Some s => Some [if String.eqb s "running" then RUNNING else PAUSED]
        | None => None
        end
      else None in
    Some {| q_state := state_filter; q_metadata := metadata_arg |}
  else None.

(** The page loop of [list_sandboxes]. Each iteration starts with the
    items of the page just fetched ([await paginator.next_items()]); an
    empty page ends the loop ([while items]), and so does a page after
    which [has_next] is false. *)
Fixpoint fetch_pages (pages : Pages) (sandboxes : list SandboxInfo)
  : M (list SandboxInfo) :=
  match pages with
  | LastPage items =>
      call CallNextItems ;;;
      match items with
      | [] => ret sandboxes
      | _ :: _ => lift (append_items sandboxes items)
      end
  | MorePages items rest =>
      call CallNextItems ;;;
      match items with
      | [] => ret sandboxes
      | _ :: _ =>
          sandboxes' <- lift (append_items sandboxes items) ;;
          fetch_pages rest sandboxes'
      end
  end.

(** [AsyncSandboxInspector.list_sandboxes] *)
Definition list_sandboxes (state_arg : option string)
           (metadata_arg : option (list (string * string)))
  : M (list SandboxInfo) :=
  let query := build_query state_arg metadata_arg in
  call (CallList query) ;;;
  fetch_pages (list_pages p query) [].

(** [AsyncSandbox.connect(sandbox_id=..., api_key=...)]; the handle is
    the id it is connected to. *)
Definition connect (sandbox_id : string) : M string :=
  call (CallConnect sandbox_id) ;;;
  match connect_error p sandbox_id with
  | None => ret sandbox_id
  | Some e => raise e
  end.

(** [AsyncSandboxInspector.metrics] *)
Definition metrics (sandbox_id : string) (start end_ : option datetime)
  : M MetricsResult :=
  sandbox <- connect sandbox_id ;;
  call (CallGetMetrics sandbox start end_) ;;;
  raw_metrics <- lift (metrics_of p sandbox start end_) ;;
  let results := map to_metrics raw_metrics in
  if (is_None start && is_None end_ && (Py.len results =? 1))%bool
  then match nth_error results 0 with
       | Some r => ret (Snapshot r)
       | None => raise (IndexError "list index out of range")
       end
  else ret (Series results).

(** [AsyncSandboxInspector.exec] *)
Definition exec (sandbox_id command : string) (timeout : option Z)
  : M CommandResult :=
  sandbox <- connect sandbox_id ;;
  let t := Py.or_int timeout (default_timeout self) in
  call (CallRunCommand sandbox command t) ;;;
  result <- lift (run_of p sandbox command t) ;;
  ret {| stdout := Py.or_empty (rc_stdout result);
         stderr := Py.or_empty (rc_stderr result);
         exit_code := rc_exit_code result |}.

(** [AsyncSandboxInspector.python] *)
Definition python (sandbox_id code : string) (timeout : option Z)
  : M CodeResult :=
  sandbox <- connect sandbox_id ;;
  let t := Py.or_int timeout (default_timeout self) in
  call (CallRunCode sandbox code "python" t) ;;;
  execution <- lift (run_code_of p sandbox code "python" t) ;;
  let '(out, err) :=
    match ex_logs execution with
    | Some logs => (Py.join (logs_stdout logs), Py.join (logs_stderr logs))
    | None => ("", "")
    end in
  ret {| c_stdout := out;
         c_stderr := err;
         error := ex_error execution;
         results := map result_text (ex_results execution) |}.

(** [AsyncSandbox.kill(sandbox_id=..., api_key=...)] *)
Definition sdk_kill (sandbox_id : string) : M unit :=
  fun tr =>
    match kill_of p tr sandbox_id with
    | Killed => (Ok tt, tr ++ [CallKill sandbox_id])
    | KillFailed e => (Raise e, tr ++ [CallKill sandbox_id])
    end.

(** The test [kill] makes on [str(e)]. *)
Definition is_not_found (msg : string) : bool :=
  let error_str := lower msg in
  (contains "not found" error_str || contains "404" error_str)%bool.

(** [AsyncSandboxInspector.kill] *)
Definition kill (sandbox_id : string) : M bool :=
  try_except
    (sdk_kill sandbox_id ;;; ret true)
    (fun e => if is_not_found (exn_str e) then ret false else raise e).

(** The loop of [kill_all] over the listed sandboxes. *)
Fixpoint kill_each (sandboxes : list SandboxInfo) (count : Z) : M Z :=
  match sandboxes with
  | [] => ret count
  | sbx :: rest =>
      killed <- kill (sandbox_id sbx) ;;
      kill_each rest (if killed then count + 1 else count)
  end.

(** [AsyncSandboxInspector.kill_all] *)
Definition kill_all (confirm : bool) : M Z :=
  if negb confirm
  then raise (ValueError "Must pass confirm=True to kill all sandboxes")
  else
    sandboxes <- list_sandboxes None None ;;
    kill_each sandboxes 0.

(** [AsyncSandboxInspector.summary]. [now_oldest] and [now_newest] are
    the readings of the clock when [oldest.uptime] and [newest.uptime]
    are evaluated. *)
Definition summary (now_oldest now_newest : datetime) : M Summary :=
  sandboxes <- list_sandboxes None None ;;
  let running := filter (fun s => String.eqb (state s) "running") sandboxes in
  let paused := filter (fun s => String.eqb (state s) "paused") sandboxes in
  let total_cpu := Py.sum (map cpu_count sandboxes) in
  let total_memory := Py.sum (map memory_mb sandboxes) in
  let oldest := Py.min_key started_at sandboxes in
  let newest := Py.max_key started_at sandboxes in
  ret {| running_count := Py.len running;
         paused_count := Py.len paused;
         total_count := Py.len sandboxes;
         total_cpu := total_cpu;
         total_memory_mb := total_memory;
         oldest_sandbox_id := option_map sandbox_id oldest;
         oldest_uptime := option_map (fun s => uptime s now_oldest) oldest;
         newest_sandbox_id := option_map sandbox_id newest;
         newest_uptime := option_map (fun s => uptime s now_newest) newest |}.

End Methods.

End Client.

(* ================================================================== *)
(** ** Vocabulary of the specification *)
(* ================================================================== *)

Module Spec.

Import Schemas Sdk Client.

(** The model [list_sandboxes] builds for one listed record. *)
Definition info_of (sbx : ListedSandbox) : SandboxInfo :=
  {| sandbox_id := l_sandbox_id sbx;
     template_id := l_template_id sbx;
     name := l_name sbx;
     metadata := l_metadata sbx;
     state := value (l_state sbx);
     started_at := l_started_at sbx;
     end_at := l_end_at sbx;
     cpu_count := l_cpu_count sbx;
     memory_mb := l_memory_mb sbx |}.

(** The records of a paginated listing in arrival order, up to its end:
    the last page, or the first page that carries no item. *)
Fixpoint arrived (pages : Pages) : list ListedSandbox :=
  match pages with
  | LastPage items => items
  | MorePages [] _ => []
  | MorePages items rest => items ++ arrived rest
  end.

(** The number of pages requested until that end. *)
Fixpoint requested (pages : Pages) : nat :=
  match pages with
  | LastPage _ => 1
  | MorePages [] _ => 1
  | MorePages _ rest => S (requested rest)
  end.

(** All the pages a paginator would serve, were it drained to its last. *)
Fixpoint all_pages (pages : Pages) : list (list ListedSandbox) :=
  match pages with
  | LastPage items => [items]
  | MorePages items rest => items :: all_pages rest
  end.

(** A sandbox is in one of the two states, and in one only. *)
Definition running_xor_paused (s : SandboxInfo) : Prop :=
  (state s = "running" /\ state s <> "paused") \/
  (state s = "paused" /\ state s <> "running").

(** [x] is the first element of [l] whose key is minimal. *)
Definition first_min {A : Type} (key : A -> Z) (l : list A) (x : A) : Prop :=
  exists before after,
    l = before ++ x :: after /\
    Forall (fun y => key x < key y) before /\
    Forall (fun y => key x <= key y) after.

(** [x] is the first element of [l] whose key is maximal. *)
Definition first_max {A : Type} (key : A -> Z) (l : list A) (x : A) : Prop :=
  exists before after,
    l = before ++ x :: after /\
    Forall (fun y => key y < key x) before /\
    Forall (fun y => key y <= key x) after.

(** The outcome of each termination of a batch that kills [ids] in
    order, the first one after the calls [tr]. *)
Fixpoint kill_outcomes (p : Provider) (tr : list Call) (ids : list string)
  : list KillOutcome :=
  match ids with
  | [] => []
  | id :: rest => kill_of p tr id :: kill_outcomes p (tr ++ [CallKill id]) rest
  end.

(** The number of terminations that succeeded. *)
Fixpoint count_killed (outs : list KillOutcome) : Z :=
  match outs with
  | [] => 0
  | Killed :: rest => 1 + count_killed rest
  | KillFailed _ :: rest => count_killed rest
  end.

(** The position and the error of the first termination that failed
    with an error not classified as not-found. *)
Fixpoint first_failure (outs : list KillOutcome) : option (nat * PyExn) :=
  match outs with
  | [] => None
  | Killed :: rest =>
      option_map (fun '(k, e) => (S k, e)) (first_failure rest)
  | KillFailed e :: rest =>
      if is_not_found (exn_str e)
      then option_map (fun '(k, e') => (S k, e')) (first_failure rest)
      else Some (O, e)
  end.

(** The timeouts of the commands and code runs recorded in a trace. *)
Fixpoint forwarded_timeouts (tr : list Call) : list Z :=
  match tr with
  | [] => []
  | CallRunCommand _ _ t :: rest => t :: forwarded_timeouts rest
  | CallRunCode _ _ _ t :: rest => t :: forwarded_timeouts rest
  | _ :: rest => forwarded_timeouts rest
  end.

(** A float is the number 0 ([x == 0.0]). *)
Definition is_zero (x : PyFloat.float) : bool := PyFloat.eqb x PyFloat.pos_zero.

(** A provider for the examples: the listing is [pages] whatever the
    query, every connection succeeds, telemetry is [raws], commands and
    code runs return nothing, and the termination of an id fails with
    [e] when [failing] holds [(id, e)]. *)
Definition example_provider (pages : Pages) (raws : list RawMetrics)
           (failing : list (string * PyExn)) : Provider :=
  {| list_pages := fun _ => pages;
     connect_error := fun _ => None;
     metrics_of := fun _ _ _ => Ok raws;
     run_of := fun _ _ _ =>
       Ok {| rc_stdout := None; rc_stderr := None; rc_exit_code := 0 |};
     run_code_of := fun _ _ _ _ =>
       Ok {| ex_logs := None; ex_results := []; ex_error := None |};
     kill_of := fun _ id =>
       match find (fun '(k, _) => String.eqb k id) failing with
       | Some (_, e) => KillFailed e
       | None => Killed
       end |}.

(** A listed record of the examples. *)
Definition example_sandbox (id : string) (st : SandboxState) (started : datetime)
  : ListedSandbox :=
  {| l_sandbox_id := id; l_template_id := "base"; l_name := None;
     l_metadata := []; l_state := st; l_started_at := started;
     l_end_at := started + 3600000000; l_cpu_count := 2; l_memory_mb := 512 |}.

(** A metric record of the examples, with the given memory figures. *)
Definition example_metrics (mem_used mem_total : Z) : RawMetrics :=
  {| r_cpu_count := 2; r_cpu_used_pct := PyFloat.of_int 7;
     r_mem_total := mem_total; r_mem_used := mem_used;
     r_disk_total := 0; r_disk_used := 0; r_timestamp := 0 |}.

Definition example_inspector : Inspector :=
  {| api_key := "e2b_key"; default_timeout := 60 |}.

End Spec.

(* ================================================================== *)
(** ** More of Python's [str], on ASCII strings *)
(* ================================================================== *)

From Stdlib Require DecimalString DecimalN.

Module PyText.

(** [c.isspace()]: tab, line feed, vertical tab, form feed, carriage
    return, the four separators 28..31 and the space. *)
Definition isspace (c : ascii) : bool :=
  let n := nat_of_ascii c in
  ((Nat.leb 9 n && Nat.leb n 13) || (Nat.leb 28 n && Nat.leb n 32))%bool.

(** [s.lstrip()] *)
Fixpoint lstrip (s : string) : string :=
  match s with
  | EmptyString => EmptyString
  | String c rest => if isspace c then lstrip rest else s
  end.

(** [s.rstrip()] *)
Fixpoint rstrip (s : string) : string :=
  match s with
  | EmptyString => EmptyString
  | String c rest =>
      match rstrip rest with
      | EmptyString => if isspace c then EmptyString else String c EmptyString
      | String _ _ as kept => String c kept
      end
  end.

(** [s.strip()] *)
Definition strip (s : string) : string := rstrip (lstrip s).

(** [s.split(sep)] for a separator of one character: every occurrence
    splits, and empty pieces are kept. *)
Fixpoint split_char (sep : ascii) (s : string) : list string :=
  match s with
  | EmptyString => [EmptyString]
  | String c rest =>
      if Ascii.eqb c sep then EmptyString :: split_char sep rest
      else match split_char sep rest with
           | piece :: pieces => String c piece :: pieces
           | [] => [String c EmptyString]
           end
  end.

(** The longest prefix of [s] without whitespace, and what follows it. *)
Fixpoint word (s : string) : string * string :=
  match s with
  | EmptyString => (EmptyString, EmptyString)
  | String c rest =>
      if isspace c then (EmptyString, s)
      else let (w, r) := word rest in (String c w, r)
  end.

(** [s.split(None, maxsplit)]: runs of whitespace separate the words; after
    [maxsplit] words what is left, without its leading whitespace, is the
    last piece, if it is not empty. *)
Fixpoint split_ws (maxsplit : nat) (s : string) : list string :=
  match lstrip s with
  | EmptyString => []
  | String _ _ as s' =>
      match maxsplit with
      | O => [s']
      | S n => let (w, r) := word s' in w :: split_ws n r
      end
  end.

(** [c] is one of [0]..[9]. *)
Definition is_digit (c : ascii) : bool :=
  let n := nat_of_ascii c in (Nat.leb 48 n && Nat.leb n 57)%bool.

Fixpoint all_digits (s : string) : bool :=
  match s with
  | EmptyString => true
  | String c rest => (is_digit c && all_digits rest)%bool
  end.

(** [s.isdigit()] *)
Definition isdigit (s : string) : bool :=
  match s with
  | EmptyString => false
  | String _ _ => all_digits s
  end.

(** The default of [sys.get_int_max_str_digits()]. *)
Definition int_max_str_digits : nat := 4300.

(** [int(s)] on a string without sign, blank or underscore: its value in
    base 10; [ValueError] when [s] is empty or holds another character, or
    has more digits than the interpreter converts. *)
Definition to_int (s : string) : Result Z :=
  if Nat.ltb int_max_str_digits (String.length s)
  then Raise (ValueError "Exceeds the limit (4300 digits) for integer string conversion")
  else match DecimalString.NilZero.uint_of_string s with
       | Some d => Ok (Z.of_N (N.of_uint d))
       | None => Raise (ValueError "invalid literal for int() with base 10")
       end.

(** [s[-1]] of a list of strings that is not empty, [""] standing for the
    [IndexError] that no list of [split] raises. *)
Definition last_piece (pieces : list string) : string :=
  List.last pieces EmptyString.

End PyText.

(* ================================================================== *)
(** ** schemas.py and async_client.py: the listing of files *)
(* ================================================================== *)

Module Files.

Import PyText.

(** [FileInfo] *)
Record FileInfo : Type := {
  f_name : string;
  f_path : string;
  is_dir : bool;
  size_bytes : Z
}.

(** The double quote and the line feed. *)
Definition dquote : string := String (ascii_of_nat 34) EmptyString.
Definition newline : ascii := ascii_of_nat 10.

(** The command [files] runs for [path]. *)
Definition find_command (path : string) : string :=
  String.append "find "
    (String.append path
       (String.append " -maxdepth 1 -printf "
          (String.append dquote
             (String.append "%y %s %p\n"
                (String.append dquote
                   (String.append " 2>/dev/null || ls -la " path)))))).

(** The body of the loop of [files] for one line: [None] when the line
    adds no entry. *)
Definition parse_line (line : string) : Result (option FileInfo) :=
  match line with
  | EmptyString => Ok None
  | String _ _ =>
      match split_ws 2 line with
      | [file_type; size; filepath] =>
          let last := last_piece (split_char "/" filepath) in
          let name := match last with EmptyString => filepath | String _ _ => last end in
          let size_of :=
            if isdigit size then to_int size else Ok 0 in
          match size_of with
          | Ok n => Ok (Some {| f_name := name;
                                f_path := filepath;
                                is_dir := String.eqb file_type "d";
                                size_bytes := n |})
          | Raise e => Raise e
          end
      | _ => Ok None
      end
  end.

(** The loop of [files] over the lines. *)
Fixpoint parse_lines (files : list FileInfo) (lines : list string)
  : Result (list FileInfo) :=
  match lines with
  | [] => Ok files
  | line :: rest =>
      match parse_line line with
      | Ok (Some f) => parse_lines (files ++ [f]) rest
      | Ok None => parse_lines files rest
      | Raise e => Raise e
      end
  end.

(** What [files] makes of [result.stdout]. *)
Definition parse_listing (stdout : string) : Result (list FileInfo) :=
  parse_lines [] (split_char newline (strip stdout)).

(** The sandbox as [files] uses it: whether [connect] fails for an id, and
    the standard output of a command run in it without a timeout of the
    caller's. *)
Record Shell : Type := {
  shell_connect_error : string -> option PyExn;
  shell_run : string -> string -> Result string
}.

(** [AsyncSandboxInspector.files] *)
Definition files (sh : Shell) (sandbox_id path : string) : Result (list FileInfo) :=
  match shell_connect_error sh sandbox_id with
  | Some e => Raise e
  | None =>
      match shell_run sh sandbox_id (find_command path) with
      | Ok stdout => parse_listing stdout
      | Raise e => Raise e
      end
  end.

End Files.

(* ================================================================== *)
(** ** Further vocabulary for the properties *)
(* ================================================================== *)

Module Spec2.

Import Schemas Sdk Client Spec PyText Files.

(** An optional string that is given and not empty. *)
Definition given (x : option string) : Prop :=
  exists k, x = Some k /\ k <> "".

(** The number of bytes of a megabyte, as [metrics] counts it. *)
Definition MiB : Z := 1024 * 1024.

(** A termination that failed with an error classified as not-found. *)
Definition not_found_outcome (o : KillOutcome) : Prop :=
  exists e, o = KillFailed e /\ is_not_found (exn_str e) = true.





(** No character of [s] satisfies [f]. *)
Fixpoint none_of (f : ascii -> bool) (s : string) : bool :=
  match s with
  | EmptyString => true
  | String c rest => (negb (f c) && none_of f rest)%bool
  end.



(** [t] is a suffix of [s]. *)
Definition suffix_of (t s : string) : Prop :=
  exists pre, s = String.append pre t.

(** A float that is a number, with the sign bit [neg]. *)
Definition signed (neg : bool) (z : PyFloat.float) : Prop :=
  match z with
  | S754_nan => False
  | S754_zero s | S754_infinity s | S754_finite s _ _ => s = neg
  end.


(** What every entry returned by [files] satisfies: a path that is not
    empty and does not start with whitespace; a name that is not empty, ends
    the path, and holds no slash unless it is the whole path; a size that is
    not negative. *)
Definition well_formed_info (f : FileInfo) : Prop :=
  f_path f <> "" /\
  lstrip (f_path f) = f_path f /\
  f_name f <> "" /\
  suffix_of (f_name f) (f_path f) /\
  (f_name f = f_path f \/ none_of (fun c => Ascii.eqb c "/") (f_name f) = true) /\
  0 <= size_bytes f.



End Spec2.

(* ================================================================== *)
(** ** Properties of the data model *)
(* ================================================================== *)

Import Schemas Sdk Client Spec.

Lemma py_max_is_max (a b : Z) : py_max a b = Z.max a b.
Proof.
  unfold py_max. destruct (Z.ltb_spec a b); lia.
Qed.

(** C9: [time_remaining] is [max(end_at - now, 0)], hence never negative,
    whatever the sandbox and the time of evaluation, also when [end_at] lies
    before [now]. *)
Theorem time_remaining_nonneg (s : SandboxInfo) (now : datetime) :
  time_remaining s now = Z.max (end_at s - now) 0 /\
  0 <= time_remaining s now.
Proof.
  unfold time_remaining. rewrite py_max_is_max. split; lia.
Qed.

Lemma int_truediv_zero_num (b : Z) :
  b <> 0 -> PyFloat.int_truediv 0 b = Some (S754_zero (b <? 0)).
Proof.
  destruct b; [congruence | reflexivity | reflexivity].
Qed.

Lemma pct_of_zero_used (total : Z) :
  total <> 0 -> pct_of 0 total = Ok (S754_zero (total <? 0)).
Proof.
  intros H. unfold pct_of. rewrite (int_truediv_zero_num _ H).
  destruct (total <? 0); reflexivity.
Qed.

(** C6, as amended: [mem_pct] and [disk_pct] are 0.0 whenever the total is
    0, whatever the used value; with a total other than 0 they are
    [round((used / total) * 100, 1)], which is again a zero whenever used
    is 0; nothing clamps the value, which is 150.0 for used 3 and total 2. *)
Theorem pct_floor_and_rounding (m : SandboxMetrics) :
  (mem_total_mb m = 0 -> mem_pct m = Ok PyFloat.pos_zero) /\
  (disk_total_mb m = 0 -> disk_pct m = Ok PyFloat.pos_zero) /\
  (mem_total_mb m <> 0 -> mem_pct m = pct_of (mem_used_mb m) (mem_total_mb m)) /\
  (disk_total_mb m <> 0 -> disk_pct m = pct_of (disk_used_mb m) (disk_total_mb m)) /\
  (mem_total_mb m <> 0 -> mem_used_mb m = 0 ->
   exists z, mem_pct m = Ok z /\ is_zero z = true) /\
  (disk_total_mb m <> 0 -> disk_used_mb m = 0 ->
   exists z, disk_pct m = Ok z /\ is_zero z = true) /\
  pct_of 3 2 = Ok (PyFloat.of_int 150) /\
  PyFloat.ltb (PyFloat.of_int 100) (PyFloat.of_int 150) = true.
Proof.
  unfold mem_pct, disk_pct.
  repeat split.
  - intros ->. reflexivity.
  - intros ->. reflexivity.
  - intros H. apply Z.eqb_neq in H. now rewrite H.
  - intros H. apply Z.eqb_neq in H. now rewrite H.
  - intros H Hu. rewrite Hu. pose proof (pct_of_zero_used _ H) as E.
    apply Z.eqb_neq in H. rewrite H, E. eexists; split; [reflexivity|].
    destruct (mem_total_mb m <? 0); reflexivity.
  - intros H Hu. rewrite Hu. pose proof (pct_of_zero_used _ H) as E.
    apply Z.eqb_neq in H. rewrite H, E. eexists; split; [reflexivity|].
    destruct (disk_total_mb m <? 0); reflexivity.
Qed.

(** The floor and the rounding on the metrics derived from a record with
    no memory in use out of 5 MB, and no disk at all. *)
Lemma pct_floor_and_rounding_witness :
  let m := to_metrics (example_metrics 0 (5 * 1024 * 1024)) in
  mem_pct m = pct_of 0 5 /\
  disk_pct m = Ok PyFloat.pos_zero /\
  (exists z, mem_pct m = Ok z /\ is_zero z = true).
Proof.
  intros m.
  destruct (pct_floor_and_rounding m) as (_ & Hd & Hm & _ & Hz & _).
  split; [| split].
  - apply Hm. vm_compute. discriminate.
  - apply Hd. reflexivity.
  - apply Hz; [vm_compute; discriminate | reflexivity].
Defined.

(** C6, as stated, fails: with used 0 and total 5 the percentage is 0.0
    although the total is not 0; with used 10001 and total 10000 the
    percentage is 100.0 and not above 100; and with used [2^1024] and total
    1 the division overflows and no percentage is returned. *)
Lemma pct_claim_fails :
  let m1 := to_metrics (example_metrics 0 (5 * 1024 * 1024)) in
  let m2 := to_metrics (example_metrics (10001 * 1024 * 1024) (10000 * 1024 * 1024)) in
  let m3 := to_metrics (example_metrics (2 ^ 1024 * 1024 * 1024) (1024 * 1024)) in
  (mem_pct m1 = Ok PyFloat.pos_zero /\
   ~ (forall z, mem_pct m1 = Ok z -> (is_zero z = true <-> mem_total_mb m1 = 0))) /\
  (mem_pct m2 = Ok (PyFloat.of_int 100) /\
   ~ (mem_total_mb m2 < mem_used_mb m2 ->
      exists z, mem_pct m2 = Ok z /\ PyFloat.ltb (PyFloat.of_int 100) z = true)) /\
  (mem_pct m3 = Raise (OverflowError "integer division result too large for a float") /\
   ~ (mem_total_mb m3 <> 0 -> exists z, mem_pct m3 = Ok z)).
Proof.
  intros m1 m2 m3.
  assert (E1 : mem_pct m1 = Ok PyFloat.pos_zero) by (vm_compute; reflexivity).
  assert (E2 : mem_pct m2 = Ok (PyFloat.of_int 100)) by (vm_compute; reflexivity).
  assert (E3 : mem_pct m3
               = Raise (OverflowError "integer division result too large for a float"))
    by (vm_compute; reflexivity).
  split; [split; [exact E1|] | split; [split; [exact E2|] | split; [exact E3|]]].
  - intros H. destruct (H _ E1) as [H0 _].
    specialize (H0 eq_refl). vm_compute in H0. discriminate.
  - intros H. destruct H as (z & Hz & Hlt); [vm_compute; reflexivity|].
    rewrite E2 in Hz. injection Hz as <-. vm_compute in Hlt. discriminate.
  - intros H. destruct H as (z & Hz); [vm_compute; discriminate|].
    rewrite E3 in Hz. discriminate.
Qed.

(* ================================================================== *)
(** ** Properties of the client *)
(* ================================================================== *)

Lemma app_two {A : Type} (l : list A) (a b : A) :
  (l ++ [a]) ++ [b] = l ++ [a; b].
Proof. now rewrite <- app_assoc. Qed.

(** What [connect] does when the provider accepts the id. *)
Lemma connect_ok (p : Provider) (id : string) (tr : list Call) :
  connect_error p id = None ->
  connect p id tr = (Ok id, tr ++ [CallConnect id]).
Proof.
  intros H. unfold connect, bind, call, ret. now rewrite H.
Qed.

(** C10: [exec] and [python] forward the caller's timeout when it is
    truthy and the configured [default_timeout] otherwise; a caller's
    timeout of 0 is replaced by [default_timeout]. *)
Theorem timeout_forwarded (self : Inspector) (p : Provider)
        (id text : string) (timeout : option Z) (tr : list Call) :
  connect_error p id = None ->
  let expected :=
    match timeout with
    | Some t => if Z.eq_dec t 0 then default_timeout self else t
    | None => default_timeout self
    end in
  snd (exec self p id text timeout tr)
    = tr ++ [CallConnect id; CallRunCommand id text expected] /\
  snd (python self p id text timeout tr)
    = tr ++ [CallConnect id; CallRunCode id text "python" expected] /\
  snd (exec self p id text (Some 0) tr)
    = tr ++ [CallConnect id; CallRunCommand id text (default_timeout self)] /\
  snd (python self p id text (Some 0) tr)
    = tr ++ [CallConnect id; CallRunCode id text "python" (default_timeout self)].
Proof.
  intros H expected.
  assert (E : Py.or_int timeout (default_timeout self) = expected).
  { unfold expected, Py.or_int. destruct timeout as [t|]; [|reflexivity].
    destruct (Z.eq_dec t 0) as [->|n]; [reflexivity|].
    apply Z.eqb_neq in n. now rewrite n. }
  assert (Hexec : forall to,
    snd (exec self p id text to tr)
    = tr ++ [CallConnect id;
             CallRunCommand id text (Py.or_int to (default_timeout self))]).
  { intros to. unfold exec, bind. rewrite (connect_ok _ _ _ H).
    unfold call, lift, ret. cbn.
    destruct (run_of p id text _); cbn; apply app_two. }
  assert (Hpy : forall to,
    snd (python self p id text to tr)
    = tr ++ [CallConnect id;
             CallRunCode id text "python" (Py.or_int to (default_timeout self))]).
  { intros to. unfold python, bind. rewrite (connect_ok _ _ _ H).
    unfold call, lift, ret. cbn.
    destruct (run_code_of p id text "python" _) as [ex|e]; cbn; [|apply app_two].
    destruct (ex_logs ex); cbn; apply app_two. }
  rewrite <- E. repeat split; [apply Hexec | apply Hpy | apply Hexec | apply Hpy].
Qed.

(** A timeout of 5 is forwarded as it is; no timeout and a timeout of 0 both
    give the default of 60. *)
Lemma timeout_forwarded_witness :
  let p := example_provider (LastPage []) [] [] in
  forwarded_timeouts (snd (exec example_inspector p "sbx" "ls" (Some 5) [])) = [5] /\
  forwarded_timeouts (snd (python example_inspector p "sbx" "1+1" None [])) = [60] /\
  forwarded_timeouts (snd (exec example_inspector p "sbx" "ls" (Some 0) [])) = [60].
Proof.
  intros p.
  destruct (timeout_forwarded example_inspector p "sbx" "ls" (Some 5) []
              eq_refl) as (H1 & _ & H3 & _).
  destruct (timeout_forwarded example_inspector p "sbx" "1+1" None []
              eq_refl) as (_ & H2 & _).
  rewrite H1, H2, H3. repeat split.
Defined.

(** C3: without [start] and [end], one provider record gives the single
    converted snapshot and any other number of records gives the whole
    converted sequence; with [start] or [end] the result is always the
    whole converted sequence, also when it has one element. *)
Theorem metrics_shape (p : Provider) (id : string) (start end_ : option datetime)
        (raws : list RawMetrics) (tr : list Call) :
  connect_error p id = None ->
  metrics_of p id start end_ = Ok raws ->
  fst (metrics p id start end_ tr)
  = Ok match start, end_, raws with
       | None, None, [m] => Snapshot (to_metrics m)
       | _, _, _ => Series (map to_metrics raws)
       end.
Proof.
  intros Hc Hm. unfold metrics, bind. rewrite (connect_ok _ _ _ Hc).
  unfold call, lift. cbn. rewrite Hm.
  destruct start, end_; cbn; try reflexivity.
  destruct raws as [|m [|m' raws]]; cbn; try reflexivity.
  destruct (Pos.of_succ_nat _); reflexivity.
Qed.

(** One record without a range is a snapshot; one record with a start, or
    two records without a range, are a series. *)
Lemma metrics_shape_witness :
  let one := example_metrics 1048576 2097152 in
  let p1 := example_provider (LastPage []) [one] [] in
  let p2 := example_provider (LastPage []) [one; one] [] in
  fst (metrics p1 "sbx" None None []) = Ok (Snapshot (to_metrics one)) /\
  fst (metrics p1 "sbx" (Some 0) None []) = Ok (Series [to_metrics one]) /\
  fst (metrics p2 "sbx" None None []) = Ok (Series [to_metrics one; to_metrics one]).
Proof.
  intros one p1 p2.
  split; [| split].
  - exact (metrics_shape p1 "sbx" None None [one] [] eq_refl eq_refl).
  - exact (metrics_shape p1 "sbx" (Some 0) None [one] [] eq_refl eq_refl).
  - exact (metrics_shape p2 "sbx" None None [one; one] [] eq_refl eq_refl).
Defined.

(** C4: [kill_all] called with a [confirm] that is not [True] raises
    [ValueError] and leaves the trace of provider calls as it was: no
    listing, no page request and no termination is made. *)
Theorem kill_all_gate (p : Provider) (confirm : bool) (tr : list Call) :
  confirm <> true ->
  kill_all p confirm tr
  = (Raise (ValueError "Must pass confirm=True to kill all sandboxes"), tr).
Proof.
  intros H. destruct confirm; [congruence | reflexivity].
Qed.

(** An unconfirmed call on a fleet of one makes no provider call. *)
Lemma kill_all_gate_witness :
  kill_all (example_provider (LastPage [example_sandbox "a" RUNNING 0]) [] [])
           false []
  = (Raise (ValueError "Must pass confirm=True to kill all sandboxes"), []).
Proof.
  apply kill_all_gate. discriminate.
Defined.

(** *** Listing and pagination *)

Lemma new_SandboxInfo_ok (sbx : ListedSandbox) :
  new_SandboxInfo sbx = Ok (info_of sbx).
Proof.
  unfold new_SandboxInfo, info_of. destruct (l_state sbx); reflexivity.
Qed.

Lemma append_items_ok (items : list ListedSandbox) :
  forall sandboxes,
    append_items sandboxes items = Ok (sandboxes ++ map info_of items).
Proof.
  induction items as [|sbx items IH]; intros sandboxes; cbn.
  - now rewrite app_nil_r.
  - rewrite new_SandboxInfo_ok, IH, <- app_assoc. reflexivity.
Qed.

Lemma fetch_pages_ok (p : Provider) (pages : Pages) :
  forall sandboxes tr,
    fetch_pages pages sandboxes tr
    = (Ok (sandboxes ++ map info_of (arrived pages)),
       tr ++ repeat CallNextItems (requested pages)).
Proof.
  induction pages as [items | items rest IH]; intros sandboxes tr.
  - destruct items as [|sbx items]; cbn; unfold bind, call, ret, lift; cbn.
    + now rewrite app_nil_r.
    + rewrite new_SandboxInfo_ok, append_items_ok, <- app_assoc. reflexivity.
  - destruct items as [|sbx items]; cbn; unfold bind, call, ret, lift; cbn.
    + now rewrite app_nil_r.
    + rewrite new_SandboxInfo_ok, append_items_ok, IH.
      rewrite map_app, <- !app_assoc. reflexivity.
Qed.

Lemma list_sandboxes_ok (p : Provider) (st : option string)
      (md : option (list (string * string))) (tr : list Call) :
  list_sandboxes p st md tr
  = (Ok (map info_of (arrived (list_pages p (build_query st md)))),
     tr ++ CallList (build_query st md)
        :: repeat CallNextItems (requested (list_pages p (build_query st md)))).
Proof.
  unfold list_sandboxes, bind, call. rewrite (fetch_pages_ok p).
  rewrite <- app_assoc. reflexivity.
Qed.

Lemma requested_bounds (pages : Pages) :
  (1 <= requested pages <= List.length (all_pages pages))%nat.
Proof.
  induction pages as [items | items rest IH]; cbn.
  - lia.
  - destruct items; cbn; lia.
Qed.

Lemma arrived_concat (pages : Pages) :
  arrived pages = List.concat (firstn (requested pages) (all_pages pages)).
Proof.
  induction pages as [items | items rest IH]; cbn.
  - now rewrite app_nil_r.
  - destruct items as [|sbx items]; cbn; [reflexivity|].
    now rewrite IH.
Qed.

Lemma requested_nonempty_before (pages : Pages) :
  Forall (fun items => items <> [])
         (firstn (requested pages - 1) (all_pages pages)).
Proof.
  induction pages as [items | items rest IH]; cbn.
  - constructor.
  - destruct items as [|sbx items]; cbn; [constructor|].
    pose proof (requested_bounds rest) as B.
    destruct (requested rest) as [|k] eqn:E; [lia|].
    cbn. constructor; [discriminate|].
    cbn in IH. now rewrite Nat.sub_0_r in IH.
Qed.

Lemma requested_stops (pages : Pages) :
  requested pages = List.length (all_pages pages) \/
  nth_error (all_pages pages) (requested pages - 1) = Some [].
Proof.
  induction pages as [items | items rest IH]; cbn.
  - now left.
  - destruct items as [|sbx items]; cbn; [now right|].
    pose proof (requested_bounds rest) as B.
    destruct IH as [IH|IH]; [left; now rewrite IH|right].
    destruct (requested rest) as [|k] eqn:E; [lia|].
    cbn in IH. now rewrite Nat.sub_0_r in IH.
Qed.

(** C5: [list_sandboxes] returns a list and never raises. It asks for a
    first page and then for one page after another as long as the page just
    received has items and the provider has more pages; the result holds
    the records of every page received, in arrival order; a listing whose
    first page is empty gives the empty list. *)
Theorem list_sandboxes_pagination (p : Provider) (st : option string)
        (md : option (list (string * string))) (tr : list Call) :
  let query := build_query st md in
  let served := all_pages (list_pages p query) in
  exists n : nat,
    list_sandboxes p st md tr
    = (Ok (map info_of (List.concat (firstn n served))),
       tr ++ CallList query :: repeat CallNextItems n) /\
    (1 <= n <= List.length served)%nat /\
    Forall (fun items => items <> []) (firstn (n - 1) served) /\
    (n = List.length served \/ nth_error served (n - 1) = Some []) /\
    (hd [] served = [] -> fst (list_sandboxes p st md tr) = Ok []).
Proof.
  intros query served. exists (requested (list_pages p query)).
  rewrite list_sandboxes_ok. fold query.
  rewrite arrived_concat. fold served.
  split; [reflexivity|].
  split; [apply requested_bounds|].
  split; [apply requested_nonempty_before|].
  split; [apply requested_stops|].
  intros Hhd. cbn [fst]. unfold served in *.
  destruct (list_pages p query) as [items | items rest]; cbn in Hhd; subst items;
    reflexivity.
Qed.

(** *** The fleet summary *)

Lemma info_of_state (sbx : ListedSandbox) : running_xor_paused (info_of sbx).
Proof.
  unfold running_xor_paused, info_of; cbn.
  destruct (l_state sbx); cbn; [left | right]; split; congruence.
Qed.

Lemma listed_states (l : list ListedSandbox) :
  Forall running_xor_paused (map info_of l).
Proof.
  induction l; cbn; constructor; auto using info_of_state.
Qed.

Lemma partition_by_state (l : list SandboxInfo) :
  Forall running_xor_paused l ->
  Py.len (filter (fun s => String.eqb (state s) "running") l)
  + Py.len (filter (fun s => String.eqb (state s) "paused") l)
  = Py.len l.
Proof.
  unfold Py.len.
  induction 1 as [|s l Hs _ IH]; [reflexivity|].
  cbn [filter].
  destruct Hs as [[E N] | [E N]].
  - apply String.eqb_neq in N. rewrite N. apply String.eqb_eq in E. rewrite E.
    cbn [List.length]. lia.
  - apply String.eqb_neq in N. rewrite N. apply String.eqb_eq in E. rewrite E.
    cbn [List.length]. lia.
Qed.

(** [summary] in closed form, over the listing it fetches. *)
Lemma summary_ok (p : Provider) (now_oldest now_newest : datetime)
      (tr : list Call) :
  let sandboxes := map info_of (arrived (list_pages p None)) in
  fst (summary p now_oldest now_newest tr)
  = Ok {| running_count :=
            Py.len (filter (fun s => String.eqb (state s) "running") sandboxes);
          paused_count :=
            Py.len (filter (fun s => String.eqb (state s) "paused") sandboxes);
          total_count := Py.len sandboxes;
          total_cpu := Py.sum (map cpu_count sandboxes);
          total_memory_mb := Py.sum (map memory_mb sandboxes);
          oldest_sandbox_id :=
            option_map sandbox_id (Py.min_key started_at sandboxes);
          oldest_uptime :=
            option_map (fun s => uptime s now_oldest)
                       (Py.min_key started_at sandboxes);
          newest_sandbox_id :=
            option_map sandbox_id (Py.max_key started_at sandboxes);
          newest_uptime :=
            option_map (fun s => uptime s now_newest)
                       (Py.max_key started_at sandboxes) |}.
Proof.
  intros sandboxes. unfold summary, bind. rewrite list_sandboxes_ok.
  reflexivity.
Qed.

(** C7: every [Summary] that [summary] produces from a listing satisfies
    [running_count + paused_count = total_count]; each listed sandbox is
    running or paused and not both. *)
Theorem summary_counts_partition (p : Provider) (now_oldest now_newest : datetime)
        (tr : list Call) :
  exists (sandboxes : list SandboxInfo) (s : Summary),
    fst (list_sandboxes p None None tr) = Ok sandboxes /\
    Forall running_xor_paused sandboxes /\
    fst (summary p now_oldest now_newest tr) = Ok s /\
    total_count s = Z.of_nat (List.length sandboxes) /\
    running_count s + paused_count s = total_count s.
Proof.
  eexists. eexists.
  rewrite list_sandboxes_ok, summary_ok. cbn [fst].
  split; [reflexivity|].
  split; [apply listed_states|].
  split; [reflexivity|].
  cbn [running_count paused_count total_count].
  split; [reflexivity|].
  apply partition_by_state, listed_states.
Qed.

Section Extrema.

Context {A : Type}.
Variable key : A -> Z.

Lemma min_loop_first (rest : list A) :
  forall before best mid,
    Forall (fun y => key best < key y) before ->
    Forall (fun y => key best <= key y) mid ->
    first_min key (before ++ best :: mid ++ rest) (Py.min_loop key best rest).
Proof.
  induction rest as [|x rest IH]; intros before best mid Hb Hm; cbn.
  - exists before, mid. rewrite app_nil_r. auto.
  - destruct (Z.ltb_spec (key x) (key best)) as [Hlt|Hge].
    + replace (before ++ best :: mid ++ x :: rest)
        with ((before ++ best :: mid) ++ x :: [] ++ rest)
        by (now rewrite <- app_assoc).
      apply IH; [|constructor].
      apply Forall_app. split; [|constructor].
      * eapply Forall_impl; [|exact Hb]. cbn; intros; lia.
      * exact Hlt.
      * eapply Forall_impl; [|exact Hm]. cbn; intros; lia.
    + replace (before ++ best :: mid ++ x :: rest)
        with (before ++ best :: (mid ++ [x]) ++ rest)
        by (now rewrite <- app_assoc).
      apply IH; [exact Hb|].
      apply Forall_app. split; [exact Hm|]. constructor; [exact Hge|constructor].
Qed.

Lemma max_loop_first (rest : list A) :
  forall before best mid,
    Forall (fun y => key y < key best) before ->
    Forall (fun y => key y <= key best) mid ->
    first_max key (before ++ best :: mid ++ rest) (Py.max_loop key best rest).
Proof.
  induction rest as [|x rest IH]; intros before best mid Hb Hm; cbn.
  - exists before, mid. rewrite app_nil_r. auto.
  - destruct (Z.ltb_spec (key best) (key x)) as [Hlt|Hge].
    + replace (before ++ best :: mid ++ x :: rest)
        with ((before ++ best :: mid) ++ x :: [] ++ rest)
        by (now rewrite <- app_assoc).
      apply IH; [|constructor].
      apply Forall_app. split; [|constructor].
      * eapply Forall_impl; [|exact Hb]. cbn; intros; lia.
      * exact Hlt.
      * eapply Forall_impl; [|exact Hm]. cbn; intros; lia.
    + replace (before ++ best :: mid ++ x :: rest)
        with (before ++ best :: (mid ++ [x]) ++ rest)
        by (now rewrite <- app_assoc).
      apply IH; [exact Hb|].
      apply Forall_app. split; [exact Hm|]. constructor; [exact Hge|constructor].
Qed.

Lemma min_key_first (x : A) (l : list A) :
  exists o, Py.min_key key (x :: l) = Some o /\ first_min key (x :: l) o.
Proof.
  eexists. split; [reflexivity|].
  apply (min_loop_first l [] x []); constructor.
Qed.

Lemma max_key_first (x : A) (l : list A) :
  exists n, Py.max_key key (x :: l) = Some n /\ first_max key (x :: l) n.
Proof.
  eexists. split; [reflexivity|].
  apply (max_loop_first l [] x []); constructor.
Qed.

End Extrema.

(** C8: [summary] always returns a [Summary]. Over a non-empty listing its
    oldest sandbox is the first one in listing order whose [started_at] is
    minimal and its newest the first one whose [started_at] is maximal; over
    an empty listing the four identity and uptime fields are [None]. *)
Theorem summary_oldest_newest (p : Provider) (now_oldest now_newest : datetime)
        (tr : list Call) :
  exists s : Summary,
    fst (summary p now_oldest now_newest tr) = Ok s /\
    match map info_of (arrived (list_pages p None)) with
    | [] =>
        total_count s = 0 /\
        oldest_sandbox_id s = None /\ oldest_uptime s = None /\
        newest_sandbox_id s = None /\ newest_uptime s = None
    | (_ :: _) as listing =>
        exists o n : SandboxInfo,
          first_min started_at listing o /\
          first_max started_at listing n /\
          oldest_sandbox_id s = Some (sandbox_id o) /\
          oldest_uptime s = Some (now_oldest - started_at o) /\
          newest_sandbox_id s = Some (sandbox_id n) /\
          newest_uptime s = Some (now_newest - started_at n)
    end.
Proof.
  eexists. rewrite summary_ok. split; [reflexivity|].
  destruct (map info_of (arrived (list_pages p None))) as [|x l]; cbn.
  - repeat split.
  - destruct (min_key_first started_at x l) as (o & Eo & Ho).
    destruct (max_key_first started_at x l) as (n & En & Hn).
    cbn in Eo, En. injection Eo as Eo. injection En as En.
    exists o, n. rewrite Eo, En. repeat split; assumption.
Qed.

(** *** Termination of one sandbox and of the fleet *)

Lemma lower_ascii_idem_on (c : ascii) :
  forall a, Ascii.eqb a c = true ->
            Ascii.eqb (PyStr.lower_ascii a) (PyStr.lower_ascii c) = true.
Proof.
  intros a H. apply Ascii.eqb_eq in H. subst a. apply Ascii.eqb_refl.
Qed.

Lemma startswith_lower (pre : string) :
  forall s, PyStr.startswith pre s = true ->
            PyStr.startswith (PyStr.lower pre) (PyStr.lower s) = true.
Proof.
  induction pre as [|a pre IH]; intros s H; [reflexivity|].
  destruct s as [|b s]; [discriminate|]. cbn in *.
  apply andb_true_iff in H. destruct H as [Hab Hrest].
  apply andb_true_iff. split; [now apply lower_ascii_idem_on | now apply IH].
Qed.

Lemma contains_lower (sub : string) :
  forall s, PyStr.contains sub s = true ->
            PyStr.contains (PyStr.lower sub) (PyStr.lower s) = true.
Proof.
  induction s as [|b s IH]; intros H.
  - cbn in H. rewrite orb_false_r in H.
    apply startswith_lower in H. cbn in *. now rewrite H.
  - cbn [PyStr.contains] in H. apply orb_true_iff in H.
    cbn [PyStr.lower PyStr.contains]. apply orb_true_iff.
    destruct H as [H|H].
    + left. apply (startswith_lower sub (String b s) H).
    + right. now apply IH.
Qed.

(** A message that holds one of the two markers as it stands is
    classified as not-found. *)
Lemma literal_marker_is_not_found (msg : string) :
  PyStr.contains "not found" msg = true \/ PyStr.contains "404" msg = true ->
  is_not_found msg = true.
Proof.
  unfold is_not_found. intros [H|H]; apply contains_lower in H;
    cbn [PyStr.lower] in H; apply orb_true_iff; [left | right]; exact H.
Qed.

(** [kill] in closed form. *)
Lemma kill_eval (p : Provider) (id : string) (tr : list Call) :
  kill p id tr
  = (match kill_of p tr id with
     | Killed => Ok true
     | KillFailed e => if is_not_found (exn_str e) then Ok false else Raise e
     end, tr ++ [CallKill id]).
Proof.
  unfold kill, try_except, bind, sdk_kill, ret, raise.
  destruct (kill_of p tr id) as [|e]; [reflexivity|].
  destruct (is_not_found (exn_str e)); reflexivity.
Qed.

(** C2: [kill] returns [False] exactly when the provider's termination
    fails with an error classified as not-found, [True] exactly when the
    termination succeeds, and raises the provider's own error exactly when
    the termination fails with an error not so classified. The
    classification looks for the markers in the lower-cased message, so a
    message that holds "not found" or "404" is classified as not-found. *)
Theorem kill_classification (p : Provider) (id : string) (tr : list Call) :
  (fst (kill p id tr) = Ok false <->
   exists e, kill_of p tr id = KillFailed e /\ is_not_found (exn_str e) = true) /\
  (fst (kill p id tr) = Ok true <-> kill_of p tr id = Killed) /\
  (forall e, fst (kill p id tr) = Raise e <->
             kill_of p tr id = KillFailed e /\ is_not_found (exn_str e) = false) /\
  (forall msg, PyStr.contains "not found" msg = true \/
               PyStr.contains "404" msg = true ->
               is_not_found msg = true) /\
  snd (kill p id tr) = tr ++ [CallKill id].
Proof.
  rewrite kill_eval. cbn [fst snd].
  split; [|split; [|split; [|split]]].
  - destruct (kill_of p tr id) as [|e]; split.
    + discriminate.
    + intros (e & H & _). discriminate.
    + destruct (is_not_found (exn_str e)) eqn:E; [|discriminate].
      intros _. now exists e.
    + intros (e' & H & E). injection H as <-. now rewrite E.
  - destruct (kill_of p tr id) as [|e]; split; try reflexivity; try discriminate.
    destruct (is_not_found (exn_str e)); discriminate.
  - intros e'. destruct (kill_of p tr id) as [|e]; split.
    + discriminate.
    + intros [H _]. discriminate.
    + destruct (is_not_found (exn_str e)) eqn:E; [discriminate|].
      intros H. injection H as <-. now split.
    + intros [H E]. injection H as <-. now rewrite E.
  - apply literal_marker_is_not_found.
  - reflexivity.
Qed.

(** A 404 in any letter case gives [False], a live id [True], and a 500 is
    raised again. *)
Lemma kill_classification_witness :
  let p := example_provider (LastPage [])
             [] [("gone", SdkError "Sandbox gone: 404 Not Found");
                 ("busy", SdkError "500 internal error")] in
  fst (kill p "gone" []) = Ok false /\
  fst (kill p "live" []) = Ok true /\
  fst (kill p "busy" []) = Raise (SdkError "500 internal error").
Proof.
  intros p.
  destruct (kill_classification p "gone" []) as (Hf & _).
  destruct (kill_classification p "live" []) as (_ & Ht & _).
  destruct (kill_classification p "busy" []) as (_ & _ & Hr & _).
  split; [| split].
  - apply Hf. eexists. split; reflexivity.
  - apply Ht. reflexivity.
  - apply Hr. split; reflexivity.
Defined.

Lemma kill_each_eval (p : Provider) (sandboxes : list SandboxInfo) :
  forall count tr,
    kill_each p sandboxes count tr
    = match first_failure (kill_outcomes p tr (map sandbox_id sandboxes)) with
      | None =>
          (Ok (count + count_killed (kill_outcomes p tr (map sandbox_id sandboxes))),
           tr ++ map CallKill (map sandbox_id sandboxes))
      | Some (k, e) =>
          (Raise e, tr ++ map CallKill (firstn (S k) (map sandbox_id sandboxes)))
      end.
Proof.
  induction sandboxes as [|sbx rest IH]; intros count tr.
  - cbn. unfold ret. now rewrite app_nil_r, Z.add_0_r.
  - cbn [kill_each map kill_outcomes]. unfold bind. rewrite kill_eval.
    destruct (kill_of p tr (sandbox_id sbx)) as [|e] eqn:Ek.
    + rewrite IH. cbn [first_failure count_killed].
      destruct (first_failure _) as [[k e]|]; cbn [option_map];
        rewrite <- app_assoc; cbn [app map firstn]; [reflexivity|].
      do 2 f_equal. lia.
    + cbn [first_failure count_killed].
      destruct (is_not_found (exn_str e)) eqn:En.
      * rewrite IH.
        destruct (first_failure _) as [[k e']|]; cbn [option_map];
          rewrite <- app_assoc; cbn [app map firstn]; reflexivity.
      * reflexivity.
Qed.

(** C1, as amended: a confirmed [kill_all] lists the fleet and terminates
    its members in listing order. When no termination fails with an error
    other than not-found, every member is attempted and the call returns
    the number of members whose termination succeeded. Otherwise the call
    raises the error of the first such failure, right after that member's
    attempt: the members listed after it are not attempted. *)
Theorem kill_all_counts_or_aborts (p : Provider) (tr : list Call) :
  let ids := map sandbox_id (map info_of (arrived (list_pages p None))) in
  let listed :=
    tr ++ CallList None :: repeat CallNextItems (requested (list_pages p None)) in
  let outcomes := kill_outcomes p listed ids in
  kill_all p true tr
  = match first_failure outcomes with
    | None => (Ok (count_killed outcomes), listed ++ map CallKill ids)
    | Some (k, e) => (Raise e, listed ++ map CallKill (firstn (S k) ids))
    end.
Proof.
  intros ids listed outcomes.
  unfold kill_all. cbn [negb]. unfold bind.
  rewrite list_sandboxes_ok.
  change (build_query None None) with (@None SandboxQuery).
  rewrite kill_each_eval. fold ids. fold listed. fold outcomes.
  destruct (first_failure outcomes) as [[k e]|]; reflexivity.
Qed.

(** C1, as stated, fails: in a fleet of three where the termination of the
    second member fails with a provider error and the other two would
    succeed, [kill_all] does not return 2; it raises that error and never
    attempts the third member. *)
Lemma kill_all_aborts_on_provider_error :
  let fleet := [example_sandbox "a" RUNNING 10; example_sandbox "b" PAUSED 20;
                example_sandbox "c" RUNNING 30] in
  let p := example_provider (LastPage fleet) []
             [("b", SdkError "500 internal error")] in
  kill_outcomes p [] ["a"; "b"; "c"]
  = [Killed; KillFailed (SdkError "500 internal error"); Killed] /\
  is_not_found "500 internal error" = false /\
  kill_all p true []
  = (Raise (SdkError "500 internal error"),
     [CallList None; CallNextItems; CallKill "a"; CallKill "b"]) /\
  fst (kill_all p true []) <> Ok 2.
Proof.
  cbv zeta. split; [reflexivity|]. split; [reflexivity|].
  split; [reflexivity|]. vm_compute. discriminate.
Qed.

(** The scenario of the specification: A started 10 minutes ago and is
    running, B started an hour ago and is paused. *)
Example summary_of_two :
  let now := 3600000000 in
  let fleet := [example_sandbox "A" RUNNING (now - 600000000);
                example_sandbox "B" PAUSED 0] in
  fst (summary (example_provider (LastPage fleet) [] []) now now [])
  = Ok {| running_count := 1; paused_count := 1; total_count := 2;
          total_cpu := 4; total_memory_mb := 1024;
          oldest_sandbox_id := Some "B"; oldest_uptime := Some 3600000000;
          newest_sandbox_id := Some "A"; newest_uptime := Some 600000000 |}.
Proof. reflexivity. Qed.

(** Ties on [started_at] go to the first sandbox listed, for the oldest and
    for the newest alike. *)
Example summary_ties_first :
  let fleet := [example_sandbox "A" RUNNING 5; example_sandbox "B" PAUSED 5] in
  exists s,
    fst (summary (example_provider (LastPage fleet) [] []) 9 9 []) = Ok s /\
    oldest_sandbox_id s = Some "A" /\ newest_sandbox_id s = Some "A".
Proof. eexists. repeat split. Qed.

(** A page without items ends the listing even when the provider has more
    pages to serve. *)
Example empty_page_ends_listing :
  let pages := MorePages [example_sandbox "A" RUNNING 1]
                 (MorePages [] (LastPage [example_sandbox "B" RUNNING 2])) in
  list_sandboxes (example_provider pages [] []) None None []
  = (Ok [info_of (example_sandbox "A" RUNNING 1)],
     [CallList None; CallNextItems; CallNextItems]).
Proof. reflexivity. Qed.

(* ================================================================== *)
(** ** Further properties of the data model and of the client *)
(* ================================================================== *)

Import PyText Files Spec2.

(** *** Construction and the listing query *)

(** X1: the constructor succeeds exactly when the argument or the
    environment gives a key that is not empty; a key given as argument wins
    over the environment, an empty argument falls back to it, and the key
    kept is never empty. *)
Theorem init_key_resolution (arg env : option string) (d : Z) :
  ((exists i, init arg env d = Ok i) <-> given arg \/ given env) /\
  (forall i, init arg env d = Ok i ->
             api_key i <> "" /\ default_timeout i = d /\
             (Some (api_key i) = arg \/ Some (api_key i) = env)) /\
  (forall k, arg = Some k -> k <> "" ->
             init arg env d = Ok {| api_key := k; default_timeout := d |}) /\
  (forall k, ~ given arg -> env = Some k -> k <> "" ->
             init arg env d = Ok {| api_key := k; default_timeout := d |}).
Proof.
  unfold given, init, Py.or_str.
  split; [|split; [|split]].
  - split.
    + intros [i H].
      destruct arg as [[|c a]|]; cbn in H.
      * destruct env as [[|c e]|]; cbn in H; try discriminate.
        right. eexists. split; [reflexivity | discriminate].
      * left. eexists. split; [reflexivity | discriminate].
      * destruct env as [[|c e]|]; cbn in H; try discriminate.
        right. eexists. split; [reflexivity | discriminate].
    + intros [(k & -> & Hk) | (k & -> & Hk)].
      * destruct k as [|c k]; [congruence|]. cbn. eauto.
      * destruct k as [|c k]; [congruence|].
        destruct arg as [[|c' a]|]; cbn; eauto.
  - intros i H.
    destruct arg as [[|c a]|]; cbn in H.
    + destruct env as [[|c e]|]; cbn in H; try discriminate.
      injection H as <-. cbn. repeat split; [discriminate | now right].
    + injection H as <-. cbn. repeat split; [discriminate | now left].
    + destruct env as [[|c e]|]; cbn in H; try discriminate.
      injection H as <-. cbn. repeat split; [discriminate | now right].
  - intros k -> Hk. destruct k as [|c k]; [congruence|]. reflexivity.
  - intros k Hn -> Hk. destruct k as [|c k]; [congruence|].
    destruct arg as [[|c' a]|]; cbn; try reflexivity.
    exfalso. apply Hn. eexists. split; [reflexivity | discriminate].
Qed.

(** X2: [list_sandboxes] sends no query exactly when neither filter is
    given; a state filter is always one state, [RUNNING] for the string
    "running" and [PAUSED] for every other string that is not empty; the
    metadata filter is passed on as it is. *)
Theorem query_of_filters (st : option string) (md : option (list (string * string))) :
  (build_query st md = None <-> ~ given st /\ (md = None \/ md = Some [])) /\
  build_query (Some "running") md
    = Some {| q_state := Some [RUNNING]; q_metadata := md |} /\
  (forall s, s <> "" -> s <> "running" ->
             build_query (Some s) md
             = Some {| q_state := Some [PAUSED]; q_metadata := md |}) /\
  (forall kv rest, ~ given st ->
             build_query st (Some (kv :: rest))
             = Some {| q_state := None; q_metadata := Some (kv :: rest) |}).
Proof.
  unfold given.
  split; [|split; [|split]].
  - split.
    + intros H. destruct st as [[|c s]|]; cbn in H.
      * destruct md as [[|kv rest]|]; cbn in H; try discriminate;
          (split; [intros (k & E & Hk); congruence | auto]).
      * discriminate.
      * destruct md as [[|kv rest]|]; cbn in H; try discriminate;
          (split; [intros (k & E & Hk); congruence | auto]).
    + intros [Hs Hm]. destruct st as [[|c s]|]; cbn.
      * destruct Hm as [-> | ->]; reflexivity.
      * exfalso. apply Hs. eexists. split; [reflexivity | discriminate].
      * destruct Hm as [-> | ->]; reflexivity.
  - reflexivity.
  - intros s Hs Hr. destruct s as [|c s]; [congruence|].
    unfold build_query. cbn [Py.str_truthy orb].
    apply String.eqb_neq in Hr. now rewrite Hr.
  - intros kv rest Hs. destruct st as [[|c s]|]; cbn; try reflexivity.
    exfalso. apply Hs. eexists. split; [reflexivity | discriminate].
Qed.

(** *** Times *)


(** *** Telemetry *)

(** X4: [metrics] rounds every size down to whole megabytes, so the order
    between used and total is kept; the other fields are passed on. *)
Theorem metrics_megabytes (m : RawMetrics) :
  let c := to_metrics m in
  (MiB * mem_total_mb c <= r_mem_total m < MiB * (mem_total_mb c + 1)) /\
  (MiB * mem_used_mb c <= r_mem_used m < MiB * (mem_used_mb c + 1)) /\
  (MiB * disk_total_mb c <= r_disk_total m < MiB * (disk_total_mb c + 1)) /\
  (MiB * disk_used_mb c <= r_disk_used m < MiB * (disk_used_mb c + 1)) /\
  (r_mem_used m <= r_mem_total m -> mem_used_mb c <= mem_total_mb c) /\
  (r_disk_used m <= r_disk_total m -> disk_used_mb c <= disk_total_mb c) /\
  m_cpu_count c = r_cpu_count m /\ cpu_pct c = r_cpu_used_pct m /\
  timestamp c = r_timestamp m.
Proof.
  cbn. unfold MiB. change (1024 * 1024) with 1048576.
  assert (F : forall x, 1048576 * (x / 1048576) <= x < 1048576 * (x / 1048576 + 1)).
  { intros x. pose proof (Z.mul_div_le x 1048576 ltac:(lia)).
    pose proof (Z.mul_succ_div_gt x 1048576 ltac:(lia)). lia. }
  repeat split; try apply F; try (intros; apply Z.div_le_mono; lia).
Qed.

(** X5: a total below one megabyte is reported as 0 MB, and the
    percentage derived from the converted record is then 0.0 whatever is in
    use. *)
Theorem small_total_gives_zero_pct (m : RawMetrics) :
  (0 <= r_mem_total m < MiB -> mem_pct (to_metrics m) = Ok PyFloat.pos_zero) /\
  (0 <= r_disk_total m < MiB -> disk_pct (to_metrics m) = Ok PyFloat.pos_zero).
Proof.
  unfold MiB, mem_pct, disk_pct. cbn [to_metrics mem_total_mb disk_total_mb].
  split; intros H; rewrite (Z.div_small _ _ H); reflexivity.
Qed.

(** On a record with 4 KiB of memory, all of it in use, and no disk. *)
Lemma small_total_gives_zero_pct_witness :
  let m := to_metrics (example_metrics 4096 4096) in
  mem_pct m = Ok PyFloat.pos_zero /\ disk_pct m = Ok PyFloat.pos_zero.
Proof.
  intros m.
  destruct (small_total_gives_zero_pct (example_metrics 4096 4096)) as [Hm Hd].
  split; [apply Hm | apply Hd]; cbn; unfold MiB; lia.
Defined.

Lemma div_eucl_shift (n : positive) (k : Z) :
  0 <= k -> Z.div_eucl (Z.shiftl (Zpos n) k) (Zpos n) = (2 ^ k, 0).
Proof.
  intros Hk. rewrite Z.shiftl_mul_pow2 by exact Hk.
  pose proof (Z.div_mul (2 ^ k) (Zpos n) ltac:(discriminate)) as Hq.
  pose proof (Z.mod_mul (2 ^ k) (Zpos n) ltac:(discriminate)) as Hr.
  unfold Z.div, Z.modulo in Hq, Hr.
  rewrite (Z.mul_comm (Zpos n)).
  destruct (Z.div_eucl (2 ^ k * Zpos n) (Zpos n)) as [q r].
  cbn in Hq, Hr. now subst.
Qed.

(** The quotient of a positive integer by itself is the float 1.0. *)
Lemma of_quot_self (n : positive) :
  PyFloat.of_quot false n n = PyFloat.of_int 1.
Proof.
  unfold PyFloat.of_quot, SFdiv, SFdiv_core_binary.
  cbn [xorb].
  replace (Z.sub (Z.add (Zdigits2 (Zpos n)) 0) (Z.add (Zdigits2 (Zpos n)) 0))
    with 0 by lia.
  change (Z.min (fexp PyFloat.prec PyFloat.emax 0) (Z.sub 0 0)) with (-53).
  change (Z.sub (Z.sub 0 0) (-53)) with 53.
  cbv iota beta.
  rewrite (div_eucl_shift n 53) by lia.
  unfold new_location, new_location_even, new_location_odd.
  destruct (Z.even (Zpos n)); reflexivity.
Qed.

Lemma pct_of_self (a : Z) : a <> 0 -> pct_of a a = Ok (PyFloat.of_int 100).
Proof.
  intros H. unfold pct_of, PyFloat.int_truediv.
  destruct a as [|n|n]; [congruence | |]; rewrite of_quot_self; reflexivity.
Qed.

(** X6: when all of a total other than 0 is in use, the percentage is
    exactly 100.0, whatever the total. *)
Theorem full_usage_is_100 (m : SandboxMetrics) :
  (mem_total_mb m <> 0 -> mem_used_mb m = mem_total_mb m ->
   mem_pct m = Ok (PyFloat.of_int 100)) /\
  (disk_total_mb m <> 0 -> disk_used_mb m = disk_total_mb m ->
   disk_pct m = Ok (PyFloat.of_int 100)).
Proof.
  unfold mem_pct, disk_pct.
  split; intros H E; rewrite E; pose proof (pct_of_self _ H) as P;
    apply Z.eqb_neq in H; now rewrite H.
Qed.

(** On a record with 3 MB of memory and 3 MB in use. *)
Lemma full_usage_is_100_witness :
  mem_pct (to_metrics (example_metrics (3 * 1048576) (3 * 1048576)))
  = Ok (PyFloat.of_int 100).
Proof.
  apply (full_usage_is_100
           (to_metrics (example_metrics (3 * 1048576) (3 * 1048576))));
    [discriminate | reflexivity].
Defined.

(** *** Errors of the provider *)

(** X7: when [connect] fails, [metrics], [exec] and [python] raise the
    provider's error unchanged, and the connection attempt is the only call
    they make: no telemetry is read and nothing is run. *)
Theorem connect_failure_propagates (self : Inspector) (p : Provider)
        (id : string) (e : PyExn) (tr : list Call) :
  connect_error p id = Some e ->
  (forall start end_,
     metrics p id start end_ tr = (Raise e, tr ++ [CallConnect id])) /\
  (forall command timeout,
     exec self p id command timeout tr = (Raise e, tr ++ [CallConnect id])) /\
  (forall code timeout,
     python self p id code timeout tr = (Raise e, tr ++ [CallConnect id])).
Proof.
  intros H.
  assert (C : connect p id tr = (Raise e, tr ++ [CallConnect id])).
  { unfold connect, bind, call, raise. now rewrite H. }
  repeat split; intros; unfold metrics, exec, python, bind; now rewrite C.
Qed.

(** A provider that knows no sandbox. *)
Lemma connect_failure_propagates_witness :
  let p := {| list_pages := fun _ => LastPage [];
              connect_error := fun _ => Some (SdkError "sandbox not found");
              metrics_of := fun _ _ _ => Ok [];
              run_of := fun _ _ _ => Raise (SdkError "unreachable");
              run_code_of := fun _ _ _ _ => Raise (SdkError "unreachable");
              kill_of := fun _ _ => Killed |} in
  exec example_inspector p "sbx" "ls" None []
  = (Raise (SdkError "sandbox not found"), [CallConnect "sbx"]).
Proof.
  intros p.
  apply (connect_failure_propagates example_inspector p "sbx"
           (SdkError "sandbox not found") [] eq_refl).
Defined.

(** X8: an error inside the executed code is data: whenever the provider
    returns an execution, [python] returns a [CodeResult] and does not
    raise; the result is a success exactly when the execution reports no
    error, it carries one text per result value, in order, and its output
    is the concatenation of the log lines. *)
Theorem python_errors_are_data (self : Inspector) (p : Provider)
        (id code : string) (timeout : option Z) (ex : Execution) (tr : list Call) :
  connect_error p id = None ->
  run_code_of p id code "python" (Py.or_int timeout (default_timeout self)) = Ok ex ->
  exists r,
    fst (python self p id code timeout tr) = Ok r /\
    error r = ex_error ex /\
    (code_success r = true <-> ex_error ex = None) /\
    results r = map result_text (ex_results ex) /\
    List.length (results r) = List.length (ex_results ex) /\
    (forall logs, ex_logs ex = Some logs ->
                  c_stdout r = String.concat "" (logs_stdout logs) /\
                  c_stderr r = String.concat "" (logs_stderr logs)) /\
    (ex_logs ex = None -> c_stdout r = "" /\ c_stderr r = "").
Proof.
  intros Hc Hr. unfold python, bind. rewrite (connect_ok _ _ _ Hc).
  unfold call, lift. cbn [fst snd]. rewrite Hr.
  destruct (ex_logs ex) as [logs|] eqn:El; cbn;
    (eexists; split; [reflexivity|]); cbn; unfold code_success; cbn;
    (split; [reflexivity|]);
    (split; [destruct (ex_error ex); split; congruence|]);
    (split; [reflexivity|]);
    (split; [apply length_map|]).
  - split; [|discriminate]. intros l [= <-]. split; reflexivity.
  - split; [discriminate|]. intros _. split; reflexivity.
Qed.

(** An execution that fails with a [NameError] after printing a line. *)
Lemma python_errors_are_data_witness :
  let ex := {| ex_logs := Some {| logs_stdout := ["a"; "b"]; logs_stderr := [] |};
               ex_results := [WithText (Some "1"); Other "<obj>"];
               ex_error := Some "NameError: x" |} in
  let p := {| list_pages := fun _ => LastPage [];
              connect_error := fun _ => None;
              metrics_of := fun _ _ _ => Ok [];
              run_of := fun _ _ _ => Raise (SdkError "unused");
              run_code_of := fun _ _ _ _ => Ok ex;
              kill_of := fun _ _ => Killed |} in
  exists r, fst (python example_inspector p "sbx" "x" None []) = Ok r /\
            error r = Some "NameError: x" /\
            List.length (results r) = 2%nat.
Proof.
  intros ex p.
  destruct (python_errors_are_data example_inspector p "sbx" "x" None ex []
              eq_refl eq_refl) as (r & H & He & _ & _ & Hl & _).
  exists r. repeat split; assumption.
Defined.

(** *** Bulk termination *)

(** [kill_all], once confirmed, in closed form. *)
Lemma kill_all_eval (p : Provider) (tr : list Call) :
  let ids := map sandbox_id (map info_of (arrived (list_pages p None))) in
  let listed :=
    tr ++ CallList None :: repeat CallNextItems (requested (list_pages p None)) in
  kill_all p true tr
  = match first_failure (kill_outcomes p listed ids) with
    | None => (Ok (count_killed (kill_outcomes p listed ids)),
               listed ++ map CallKill ids)
    | Some (k, e) => (Raise e, listed ++ map CallKill (firstn (S k) ids))
    end.
Proof.
  intros ids listed. unfold kill_all. cbn [negb]. unfold bind.
  rewrite list_sandboxes_ok.
  change (build_query None None) with (@None SandboxQuery).
  rewrite kill_each_eval. fold ids. fold listed.
  destruct (first_failure _) as [[k e]|]; reflexivity.
Qed.

Lemma count_killed_bounds (outs : list KillOutcome) :
  0 <= count_killed outs <= Z.of_nat (List.length outs).
Proof.
  induction outs as [|[|e] outs IH]; cbn [count_killed List.length]; lia.
Qed.

Lemma kill_outcomes_length (p : Provider) (ids : list string) :
  forall tr, List.length (kill_outcomes p tr ids) = List.length ids.
Proof.
  induction ids as [|id ids IH]; intros tr; cbn; [reflexivity|].
  now rewrite IH.
Qed.

(** X9: whenever a confirmed [kill_all] returns, its count lies between 0
    and the size of the fleet it listed, and it has attempted every listed
    member once, in listing order, after the listing. *)
Theorem kill_all_count_bounds (p : Provider) (tr : list Call) (n : Z) :
  fst (kill_all p true tr) = Ok n ->
  let ids := map sandbox_id (map info_of (arrived (list_pages p None))) in
  0 <= n <= Z.of_nat (List.length ids) /\
  snd (kill_all p true tr)
  = (tr ++ CallList None :: repeat CallNextItems (requested (list_pages p None)))
      ++ map CallKill ids.
Proof.
  intros H ids. rewrite kill_all_eval in *. fold ids in H |- *.
  destruct (first_failure _) as [[k e]|]; cbn [fst snd] in *; [discriminate|].
  injection H as <-. split; [|reflexivity].
  pose proof (count_killed_bounds
                (kill_outcomes p
                   (tr ++ CallList None
                       :: repeat CallNextItems (requested (list_pages p None)))
                   ids)) as B.
  rewrite kill_outcomes_length in B. exact B.
Qed.

(** A fleet of three of which the second is gone already. *)
Lemma kill_all_count_bounds_witness :
  let fleet := [example_sandbox "a" RUNNING 10; example_sandbox "b" PAUSED 20;
                example_sandbox "c" RUNNING 30] in
  let p := example_provider (LastPage fleet) [] [("b", SdkError "404 not found")] in
  fst (kill_all p true []) = Ok 2 /\
  (0 <= 2 <= 3 /\
   snd (kill_all p true [])
   = [CallList None; CallNextItems; CallKill "a"; CallKill "b"; CallKill "c"]).
Proof.
  intros fleet p. split; [reflexivity|].
  exact (kill_all_count_bounds p [] 2 eq_refl).
Defined.

Lemma all_not_found_outcomes (outs : list KillOutcome) :
  Forall not_found_outcome outs ->
  first_failure outs = None /\ count_killed outs = 0.
Proof.
  induction 1 as [|o outs (e & -> & Hnf) _ [IHf IHc]]; [split; reflexivity|].
  cbn. rewrite Hnf, IHf, IHc. split; reflexivity.
Qed.

(** X10: when every termination fails as not-found (the fleet vanished
    after it was listed; an empty fleet is the limit case), [kill_all]
    returns 0 and has still attempted every listed member. *)
Theorem kill_all_nothing_left (p : Provider) (tr : list Call) :
  let ids := map sandbox_id (map info_of (arrived (list_pages p None))) in
  let listed :=
    tr ++ CallList None :: repeat CallNextItems (requested (list_pages p None)) in
  Forall not_found_outcome (kill_outcomes p listed ids) ->
  kill_all p true tr = (Ok 0, listed ++ map CallKill ids).
Proof.
  intros ids listed H. rewrite kill_all_eval. fold ids. fold listed.
  destruct (all_not_found_outcomes _ H) as [-> ->]. reflexivity.
Qed.

(** A fleet of two, both gone, and an empty fleet. *)
Lemma kill_all_nothing_left_witness :
  let fleet := [example_sandbox "a" RUNNING 10; example_sandbox "b" PAUSED 20] in
  let p := example_provider (LastPage fleet) []
             [("a", SdkError "Sandbox a Not Found"); ("b", SdkError "HTTP 404")] in
  kill_all p true []
  = (Ok 0, [CallList None; CallNextItems; CallKill "a"; CallKill "b"]) /\
  kill_all (example_provider (LastPage []) [] []) true []
  = (Ok 0, [CallList None; CallNextItems]).
Proof.
  intros fleet p. split.
  - apply (kill_all_nothing_left p []).
    repeat constructor; eexists; split; reflexivity.
  - apply (kill_all_nothing_left (example_provider (LastPage []) [] []) []).
    constructor.
Defined.

(** *** The not-found classification *)

Lemma lower_app (a b : string) :
  PyStr.lower (String.append a b)
  = String.append (PyStr.lower a) (PyStr.lower b).
Proof.
  induction a as [|c a IH]; cbn; [reflexivity | now rewrite IH].
Qed.

Lemma startswith_app (sub post : string) :
  PyStr.startswith sub (String.append sub post) = true.
Proof.
  induction sub as [|c sub IH]; cbn; [reflexivity|].
  now rewrite Ascii.eqb_refl, IH.
Qed.

Lemma contains_app (sub pre post : string) :
  PyStr.contains sub (String.append pre (String.append sub post)) = true.
Proof.
  induction pre as [|c pre IH].
  - cbn [String.append]. destruct (String.append sub post) eqn:E;
      cbn [PyStr.contains]; rewrite <- E, startswith_app; reflexivity.
  - cbn [String.append PyStr.contains]. rewrite IH. apply orb_true_r.
Qed.

(** X11: [kill] takes for not-found every error whose message holds, at
    any place and beside any other text, the digits 404 or the words "not
    found" in any mix of upper and lower case: it returns [False] and the
    error is not raised. *)
Theorem kill_swallows_embedded_markers (p : Provider) (id : string)
        (tr : list Call) (e : PyExn) (pre mid post : string) :
  kill_of p tr id = KillFailed e ->
  exn_str e = String.append pre (String.append mid post) ->
  PyStr.lower mid = "not found" \/ mid = "404" ->
  kill p id tr = (Ok false, tr ++ [CallKill id]).
Proof.
  intros Hk Hm Hmid. rewrite kill_eval, Hk.
  assert (N : is_not_found (exn_str e) = true).
  { unfold is_not_found. rewrite Hm, !lower_app. apply orb_true_iff.
    destruct Hmid as [-> | ->]; [left | right]; apply contains_app. }
  now rewrite N.
Qed.

(** An HTTP 500 whose text happens to hold the digits 404. *)
Lemma kill_swallows_embedded_markers_witness :
  let e := SdkError "500 internal error (request 14045 failed)" in
  kill (example_provider (LastPage []) [] [("sbx", e)]) "sbx" []
  = (Ok false, [CallKill "sbx"]).
Proof.
  intros e.
  apply (kill_swallows_embedded_markers _ "sbx" [] e
           "500 internal error (request 1" "404" "5 failed)");
    [reflexivity | reflexivity | now right].
Defined.

(** *** The summary and the listing *)

Lemma first_min_le {A : Type} (key : A -> Z) (l : list A) (x : A) :
  first_min key l x -> In x l /\ Forall (fun y => key x <= key y) l.
Proof.
  intros (before & after & -> & Hb & Ha). split.
  - apply in_or_app. right. now left.
  - apply Forall_app. split.
    + eapply Forall_impl; [|exact Hb]. cbn; intros; lia.
    + constructor; [lia | exact Ha].
Qed.

Lemma first_max_ge {A : Type} (key : A -> Z) (l : list A) (x : A) :
  first_max key l x -> In x l /\ Forall (fun y => key y <= key x) l.
Proof.
  intros (before & after & -> & Hb & Ha). split.
  - apply in_or_app. right. now left.
  - apply Forall_app. split.
    + eapply Forall_impl; [|exact Hb]. cbn; intros; lia.
    + constructor; [lia | exact Ha].
Qed.

(** X12: in a summary whose two uptimes are read at the same instant, the
    uptime of the oldest sandbox is the largest and that of the newest the
    smallest of the fleet: every listed sandbox's uptime lies between them.
    Both are absent together, exactly for an empty fleet. *)
Theorem summary_uptime_range (p : Provider) (now : datetime) (tr : list Call)
        (s : Summary) :
  fst (summary p now now tr) = Ok s ->
  let fleet := map info_of (arrived (list_pages p None)) in
  match oldest_uptime s, newest_uptime s with
  | Some oldest, Some newest =>
      fleet <> [] /\
      Forall (fun x => newest <= uptime x now <= oldest) fleet
  | None, None =>
      fleet = [] /\ oldest_sandbox_id s = None /\ newest_sandbox_id s = None
  | _, _ => False
  end.
Proof.
  intros H fleet. rewrite summary_ok in H. injection H as <-.
  fold fleet. cbn [oldest_uptime newest_uptime oldest_sandbox_id newest_sandbox_id].
  destruct fleet as [|x l]; cbn [Py.min_key Py.max_key option_map].
  - repeat split.
  - split; [discriminate|].
    destruct (min_key_first started_at x l) as (o & Eo & Ho).
    destruct (max_key_first started_at x l) as (n & En & Hn).
    cbn in Eo, En. injection Eo as Eo. injection En as En. rewrite Eo, En.
    apply first_min_le in Ho. apply first_max_ge in Hn.
    destruct Ho as [_ Ho]. destruct Hn as [_ Hn].
    rewrite Forall_forall in *. intros y Hy.
    specialize (Ho y Hy). specialize (Hn y Hy). unfold uptime. lia.
Qed.

(** The fleet of the scenario, read at one instant. *)
Lemma summary_uptime_range_witness :
  let now := 3600000000 in
  let fleet := [example_sandbox "A" RUNNING (now - 600000000);
                example_sandbox "B" PAUSED 0] in
  map info_of fleet <> [] /\
  Forall (fun x => 600000000 <= uptime x now <= 3600000000) (map info_of fleet).
Proof.
  intros now fleet.
  exact (summary_uptime_range (example_provider (LastPage fleet) [] []) now []
           _ eq_refl).
Defined.

Lemma all_pages_nonempty (pages : Pages) : all_pages pages <> [].
Proof. destruct pages; discriminate. Qed.

Lemma arrived_all (pages : Pages) :
  Forall (fun items => items <> []) (removelast (all_pages pages)) ->
  requested pages = List.length (all_pages pages) /\
  arrived pages = List.concat (all_pages pages).
Proof.
  induction pages as [items | items rest IH]; intros H.
  - cbn. now rewrite app_nil_r.
  - cbn [all_pages] in H.
    assert (R : removelast (items :: all_pages rest)
                = items :: removelast (all_pages rest)).
    { cbn. destruct (all_pages rest) eqn:E; [|reflexivity].
      now apply all_pages_nonempty in E. }
    rewrite R in H. inversion H as [|? ? Hi Hrest]; subst.
    destruct (IH Hrest) as [IHr IHa].
    destruct items as [|sbx items]; [congruence|].
    cbn. now rewrite IHr, IHa.
Qed.

(** X13: when every page but the last has items, [list_sandboxes] drains
    the paginator: it requests each of the provider's pages once and
    returns every record of every page, in arrival order. *)
Theorem list_sandboxes_complete (p : Provider) (st : option string)
        (md : option (list (string * string))) (tr : list Call) :
  let query := build_query st md in
  let served := all_pages (list_pages p query) in
  Forall (fun items => items <> []) (removelast served) ->
  list_sandboxes p st md tr
  = (Ok (map info_of (List.concat served)),
     tr ++ CallList query :: repeat CallNextItems (List.length served)).
Proof.
  intros query served H. rewrite list_sandboxes_ok. fold query.
  destruct (arrived_all _ H) as [-> ->]. reflexivity.
Qed.

(** Two pages of one and two records, the last page empty. *)
Lemma list_sandboxes_complete_witness :
  let a := example_sandbox "a" RUNNING 1 in
  let b := example_sandbox "b" PAUSED 2 in
  let c := example_sandbox "c" RUNNING 3 in
  let p := example_provider (MorePages [a] (MorePages [b; c] (LastPage []))) [] [] in
  list_sandboxes p None None []
  = (Ok [info_of a; info_of b; info_of c],
     [CallList None; CallNextItems; CallNextItems; CallNextItems]).
Proof.
  intros a b c p.
  apply (list_sandboxes_complete p None None []).
  repeat constructor; discriminate.
Defined.

(** *** The listing of files *)

Lemma lstrip_fixed (c : ascii) (s : string) :
  isspace c = false -> lstrip (String c s) = String c s.
Proof. intros H. cbn. now rewrite H. Qed.

Lemma lstrip_head (s : string) :
  match lstrip s with
  | EmptyString => True
  | String c _ => isspace c = false
  end.
Proof.
  induction s as [|c s IH]; cbn; [exact I|].
  destruct (isspace c) eqn:E; [exact IH | exact E].
Qed.

Lemma lstrip_idem (s : string) : lstrip (lstrip s) = lstrip s.
Proof.
  pose proof (lstrip_head s) as H.
  destruct (lstrip s) as [|c r]; [reflexivity | now apply lstrip_fixed].
Qed.

Lemma split_ws_last (s piece : string) :
  split_ws 0 s = [piece] -> piece <> "" /\ lstrip piece = piece.
Proof.
  cbn. pose proof (lstrip_idem s) as I.
  destruct (lstrip s) as [|c r]; [discriminate|].
  intros [= <-]. split; [discriminate | exact I].
Qed.

Lemma split_ws_step (n : nat) (s : string) :
  split_ws (S n) s
  = match lstrip s with
    | EmptyString => []
    | String _ _ as s' => fst (word s') :: split_ws n (snd (word s'))
    end.
Proof.
  cbn [split_ws]. destruct (lstrip s) as [|c r]; [reflexivity|].
  destruct (word (String c r)); reflexivity.
Qed.

Lemma split_ws_third (line a b c : string) :
  split_ws 2 line = [a; b; c] -> c <> "" /\ lstrip c = c.
Proof.
  rewrite split_ws_step.
  destruct (lstrip line) as [|c1 r1]; [discriminate|].
  cbv beta iota zeta. rewrite split_ws_step.
  destruct (lstrip (snd (word (String c1 r1)))) as [|c2 r2]; [discriminate|].
  cbv beta iota zeta. intros H.
  assert (H0 : split_ws 0 (snd (word (String c2 r2))) = [c]) by congruence.
  now apply split_ws_last in H0.
Qed.

Lemma split_char_nonempty (sep : ascii) (s : string) : split_char sep s <> [].
Proof.
  destruct s as [|c s]; cbn; [discriminate|].
  destruct (Ascii.eqb c sep); [discriminate|].
  destruct (split_char sep s); discriminate.
Qed.

Lemma split_char_single (sep : ascii) (s x : string) :
  split_char sep s = [x] -> x = s.
Proof.
  revert x. induction s as [|c s IH]; intros x; cbn.
  - now intros [= <-].
  - destruct (Ascii.eqb c sep).
    + intros [= _ H]. now apply split_char_nonempty in H.
    + destruct (split_char sep s) as [|piece pieces] eqn:E;
        [now apply split_char_nonempty in E|].
      intros [= <- ->]. now rewrite (IH piece eq_refl).
Qed.

Lemma last_cons {A : Type} (x y : A) (l : list A) (d : A) :
  List.last (x :: y :: l) d = List.last (y :: l) d.
Proof. reflexivity. Qed.

Lemma last_piece_suffix (sep : ascii) (s : string) :
  suffix_of (last_piece (split_char sep s)) s.
Proof.
  unfold last_piece.
  induction s as [|c s IH]; cbn [split_char].
  - exists "". reflexivity.
  - destruct (Ascii.eqb c sep).
    + destruct (split_char sep s) as [|y l] eqn:E;
        [now apply split_char_nonempty in E|].
      rewrite last_cons. destruct IH as [pre ->].
      exists (String c pre). reflexivity.
    + destruct (split_char sep s) as [|piece pieces] eqn:E;
        [now apply split_char_nonempty in E|].
      destruct pieces as [|y l].
      * apply split_char_single in E. subst piece. exists "". reflexivity.
      * rewrite last_cons. rewrite last_cons in IH. destruct IH as [pre ->].
        exists (String c pre). reflexivity.
Qed.

Lemma split_char_pieces (sep : ascii) (s : string) :
  Forall (fun piece => none_of (fun c => Ascii.eqb c sep) piece = true)
         (split_char sep s).
Proof.
  induction s as [|c s IH]; cbn [split_char].
  - repeat constructor.
  - destruct (Ascii.eqb c sep) eqn:Ec.
    + constructor; [reflexivity | exact IH].
    + destruct (split_char sep s) as [|piece pieces];
        [repeat constructor; cbn; now rewrite Ec|].
      inversion IH as [|? ? Hp Hps]; subst.
      constructor; [cbn; now rewrite Ec, Hp | exact Hps].
Qed.

Lemma last_Forall {A : Type} (P : A -> Prop) (l : list A) (d : A) :
  l <> [] -> Forall P l -> P (List.last l d).
Proof.
  intros Hne H. induction H as [|x l Hx Hl IH]; [congruence|].
  destruct l as [|y l]; [exact Hx|].
  rewrite last_cons. apply IH. discriminate.
Qed.

Lemma to_int_nonneg (s : string) (n : Z) : to_int s = Ok n -> 0 <= n.
Proof.
  unfold to_int. destruct (Nat.ltb _ _); [discriminate|].
  destruct (DecimalString.NilZero.uint_of_string s); [|discriminate].
  intros [= <-]. apply N2Z.is_nonneg.
Qed.

Lemma parse_line_well_formed (line : string) (f : FileInfo) :
  parse_line line = Ok (Some f) -> well_formed_info f.
Proof.
  unfold parse_line. destruct line as [|c0 line0]; [discriminate|].
  destruct (split_ws 2 (String c0 line0)) as [|a [|b [|c [|d l]]]] eqn:E;
    try discriminate.
  apply split_ws_third in E. destruct E as [Hne Hls].
  set (size_of := if isdigit b then to_int b else Ok 0).
  assert (Hsize : forall n, size_of = Ok n -> 0 <= n).
  { unfold size_of. destruct (isdigit b); [apply to_int_nonneg|].
    intros n [= <-]. lia. }
  destruct size_of as [n|e]; [|discriminate].
  intros [= <-]. unfold well_formed_info. cbn.
  split; [exact Hne|]. split; [exact Hls|].
  pose proof (last_piece_suffix "/" c) as Hsuf.
  pose proof (last_Forall _ _ EmptyString (split_char_nonempty "/" c)
                (split_char_pieces "/" c)) as Hslash.
  cbn beta in Hslash. fold (last_piece (split_char "/" c)) in Hslash.
  destruct (last_piece (split_char "/" c)) as [|x last] eqn:El.
  - split; [exact Hne|]. split; [exists ""; reflexivity|].
    split; [now left | now apply Hsize].
  - split; [discriminate|]. split; [exact Hsuf|].
    split; [now right | now apply Hsize].
Qed.

Lemma parse_lines_well_formed (lines : list string) :
  forall acc fs,
    Forall well_formed_info acc ->
    parse_lines acc lines = Ok fs ->
    Forall well_formed_info fs /\
    (List.length fs <= List.length acc + List.length lines)%nat.
Proof.
  induction lines as [|line lines IH]; intros acc fs Hacc; cbn.
  - intros [= <-]. split; [exact Hacc | lia].
  - destruct (parse_line line) as [[f|]|e] eqn:E; [| |discriminate].
    + intros H. apply IH in H.
      * destruct H as [H L]. split; [exact H|].
        rewrite length_app in L. cbn in L. lia.
      * apply Forall_app. split; [exact Hacc|].
        constructor; [now apply parse_line_well_formed in E | constructor].
    + intros H. apply IH in H; [|exact Hacc].
      destruct H as [H L]. split; [exact H | lia].
Qed.

(** X14: every entry [files] returns has a path that is not empty and
    does not start with whitespace, a name that is not empty, ends the path
    and holds no slash unless it is the whole path, and a size that is not
    negative; there are at most as many entries as lines in the output. *)
Theorem files_entries_well_formed (sh : Shell) (id path : string)
        (fs : list FileInfo) :
  files sh id path = Ok fs ->
  Forall well_formed_info fs /\
  exists stdout,
    shell_run sh id (find_command path) = Ok stdout /\
    (List.length fs <= List.length (split_char newline (strip stdout)))%nat.
Proof.
  unfold files. destruct (shell_connect_error sh id); [discriminate|].
  destruct (shell_run sh id (find_command path)) as [stdout|e]; [|discriminate].
  unfold parse_listing. intros H.
  apply parse_lines_well_formed in H; [|constructor].
  destruct H as [H L]. split; [exact H|].
  exists stdout. split; [reflexivity | exact L].
Qed.

(** A shell whose [find] prints the given output. *)
Lemma files_entries_well_formed_witness :
  let out := String.append "d 4096 /srv/"
               (String newline
                  (String.append "f 12 /srv/my file.txt"
                     (String newline "total 0"))) in
  let sh := {| shell_connect_error := fun _ => None;
               shell_run := fun _ _ => Ok out |} in
  exists fs, files sh "sbx" "/srv" = Ok fs /\
             List.length fs = 2%nat /\ Forall well_formed_info fs.
Proof.
  intros out sh. eexists. split; [reflexivity|]. split; [reflexivity|].
  exact (proj1 (files_entries_well_formed sh "sbx" "/srv" _ eq_refl)).
Defined.
























(** *** The sign of a percentage *)

Lemma shr_1_nonneg (mrs : shr_record) :
  0 <= shr_m mrs -> 0 <= shr_m (shr_1 mrs).
Proof.
  destruct mrs as [m r s]. cbn [shr_m].
  destruct m as [|[q|q|]|[q|q|]]; cbn; lia.
Qed.

Lemma iter_shr_1_nonneg (n : positive) :
  forall mrs, 0 <= shr_m mrs -> 0 <= shr_m (iter_pos shr_1 n mrs).
Proof.
  induction n as [n IH|n IH|]; intros mrs H; cbn [iter_pos].
  - apply IH, IH, shr_1_nonneg, H.
  - apply IH, IH, H.
  - apply shr_1_nonneg, H.
Qed.

Lemma shr_fexp_nonneg (m e : Z) (l : location) :
  0 <= m -> 0 <= shr_m (fst (shr_fexp PyFloat.prec PyFloat.emax m e l)).
Proof.
  intros H. unfold shr_fexp, shr.
  assert (R : 0 <= shr_m (shr_record_of_loc m l)).
  { destruct l as [|[| |]]; exact H. }
  destruct (Z.sub _ e); cbn [fst]; [exact R| |exact R].
  now apply iter_shr_1_nonneg.
Qed.

Lemma round_nearest_even_nonneg (m : Z) (l : location) :
  0 <= m -> 0 <= round_nearest_even m l.
Proof.
  intros H. unfold round_nearest_even.
  destruct l as [|[| |]]; try lia. destruct (Z.even m); lia.
Qed.

Lemma binary_round_aux_signed (sx : bool) (mx ex : Z) (lx : location) :
  0 <= mx -> signed sx (binary_round_aux PyFloat.prec PyFloat.emax sx mx ex lx).
Proof.
  intros H. unfold binary_round_aux.
  pose proof (shr_fexp_nonneg mx ex lx H) as H1.
  destruct (shr_fexp PyFloat.prec PyFloat.emax mx ex lx) as [mrs' e'].
  cbn [fst] in H1.
  pose proof (shr_fexp_nonneg _ e' loc_Exact
                (round_nearest_even_nonneg _ (loc_of_shr_record mrs') H1)) as H2.
  destruct (shr_fexp PyFloat.prec PyFloat.emax
              (round_nearest_even (shr_m mrs') (loc_of_shr_record mrs'))
              e' loc_Exact) as [mrs'' e''].
  cbn [fst] in H2.
  destruct (shr_m mrs'') as [|q|q]; cbn; [reflexivity| |lia].
  destruct (Z.leb e'' _); reflexivity.
Qed.

Lemma of_quot_signed (neg : bool) (n d : positive) :
  signed neg (PyFloat.of_quot neg n d).
Proof.
  unfold PyFloat.of_quot, SFdiv, SFdiv_core_binary.
  rewrite xorb_false_r.
  set (m' := match Z.sub _ _ with
             | Zpos _ => Z.shiftl (Zpos n) _
             | Z0 => Zpos n
             | Zneg _ => Z0
             end).
  assert (Hm : 0 <= m').
  { unfold m'. destruct (Z.sub _ _); try lia.
    apply Z.shiftl_nonneg. lia. }
  pose proof (Z.div_pos m' (Zpos d) Hm ltac:(lia)) as Hq.
  unfold Z.div in Hq.
  destruct (Z.div_eucl m' (Zpos d)) as [q r]. cbn [fst] in Hq.
  now apply binary_round_aux_signed.
Qed.

Lemma mul_100_signed (x : PyFloat.float) :
  signed false x -> signed false (PyFloat.mul x (PyFloat.of_int 100)).
Proof.
  destruct x as [s|s| |s m e]; cbn [signed]; intros H; try contradiction; subst s.
  - reflexivity.
  - reflexivity.
  - change (PyFloat.of_int 100) with (S754_finite false 7036874417766400 (-46)).
    unfold PyFloat.mul, SFmul. cbn [xorb].
    apply binary_round_aux_signed. lia.
Qed.

Lemma round1_signed (neg : bool) (x : PyFloat.float) :
  signed neg x -> signed neg (PyFloat.round1 x).
Proof.
  destruct x as [s|s| |s m e]; cbn [signed PyFloat.round1]; intros H;
    try contradiction; try exact H. subst s.
  destruct (PyFloat.tenths m e); [reflexivity | apply of_quot_signed | reflexivity].
Qed.

Lemma int_truediv_signed (a b : Z) (q : PyFloat.float) :
  0 <= a -> 0 < b -> PyFloat.int_truediv a b = Some q -> signed false q.
Proof.
  intros Ha Hb. unfold PyFloat.int_truediv.
  destruct a as [|n|n]; destruct b as [|d|d]; try lia.
  - intros [= <-]. reflexivity.
  - pose proof (of_quot_signed false n d) as S.
    destruct (PyFloat.of_quot false n d); intros [= <-]; exact S.
Qed.

Lemma signed_false_number (z : PyFloat.float) :
  signed false z -> z <> S754_nan /\ PyFloat.ltb z PyFloat.pos_zero = false.
Proof.
  destruct z as [s|s| |s m e]; cbn [signed]; intros H; try contradiction;
    subst s; split; try discriminate; reflexivity.
Qed.

(** X16: for a used value that is not negative and a total that is not
    negative, a percentage that is returned is a number, never NaN, and
    never below 0.0. *)
Theorem pct_is_a_nonnegative_number (m : SandboxMetrics) (z : PyFloat.float) :
  (0 <= mem_used_mb m -> 0 <= mem_total_mb m -> mem_pct m = Ok z ->
   z <> S754_nan /\ PyFloat.ltb z PyFloat.pos_zero = false) /\
  (0 <= disk_used_mb m -> 0 <= disk_total_mb m -> disk_pct m = Ok z ->
   z <> S754_nan /\ PyFloat.ltb z PyFloat.pos_zero = false).
Proof.
  assert (P : forall used total, 0 <= used -> 0 <= total ->
              (if total =? 0 then Ok PyFloat.pos_zero else pct_of used total) = Ok z ->
              z <> S754_nan /\ PyFloat.ltb z PyFloat.pos_zero = false).
  { intros used total Hu Ht. destruct (Z.eqb_spec total 0) as [E|E].
    - intros [= <-]. split; [discriminate | reflexivity].
    - unfold pct_of.
      destruct (PyFloat.int_truediv used total) as [q|] eqn:Q; [|discriminate].
      intros [= <-]. apply signed_false_number, round1_signed, mul_100_signed.
      apply (int_truediv_signed used total q Hu ltac:(lia) Q). }
  split; apply P.
Qed.

(** On a record with 1 MB in use out of 3 MB. *)
Lemma pct_is_a_nonnegative_number_witness :
  let m := to_metrics (example_metrics 1048576 (3 * 1048576)) in
  exists z, mem_pct m = Ok z /\ z <> S754_nan /\
            PyFloat.ltb z PyFloat.pos_zero = false.
Proof.
  intros m. eexists. split; [reflexivity|].
  apply (proj1 (pct_is_a_nonnegative_number m _)); [cbn; lia | cbn; lia | reflexivity].
Defined.
